(** * Deploying and monitoring notebook: a shallow embedding

    The notebook [02_deploy_and_monitor/deploy_and_monitor.ipynb] sequences
    calls to the SageMaker SDK and to boto3, formats S3 paths and prints
    results.  This development embeds

    - the fragments of the Python runtime the cells rely on (exceptions,
      [str.replace], [str.rfind], slicing, indexing, [split], [json]);
    - every Python code cell as a program over the calls it makes to the
      outside world (SDK, boto3, clock, console);
    - a reference model of the two platform services whose behaviour the
      cells depend on (training-job listing and the object store);

    and proves the properties of the orchestration logic. *)

From Stdlib Require Import ZArith String Ascii List Bool Lia.
From stdpp Require Import base option list gmap strings sorting.

Local Open Scope string_scope.
Local Open Scope Z_scope.

(** ** Python runtime *)

Module Py.

(** Exceptions raised by the cells, by the Python runtime or by the SDK.
    [ClientError] carries the message of the platform (botocore's
    [ClientError] and the SDK's errors). *)
Inductive exn : Type :=
| Exception (msg : string)
| TypeError (msg : string)
| IndexError (msg : string)
| KeyError (key : string)
| AttributeError (msg : string)
| JSONDecodeError (msg : string)
| FileNotFoundError (msg : string)
| ClientError (msg : string).

Inductive result (A : Type) : Type :=
| Ok (a : A)
| Raise (e : exn).
Arguments Ok {A} a.
Arguments Raise {A} e.

Definition rbind {A B} (r : result A) (k : A -> result B) : result B :=
  match r with
  | Ok a => k a
  | Raise e => Raise e
  end.

Definition is_ok {A} (r : result A) : bool :=
  match r with Ok _ => true | Raise _ => false end.

(** [s[: n]] : a negative bound counts from the end, bounds are clipped. *)
Fixpoint take_str (n : nat) (s : string) : string :=
  match n, s with
  | S n', String c s' => String c (take_str n' s')
  | _, _ => ""
  end.

Definition slice_to (s : string) (n : Z) : string :=
  if 0 <=? n then take_str (Z.to_nat n) s
  else take_str (Z.to_nat (Z.of_nat (String.length s) + n)) s.

(** [l[i]] : a negative index counts from the end; out of range raises. *)
Definition index {A} (l : list A) (i : Z) : result A :=
  let n := Z.of_nat (List.length l) in
  let j := if i <? 0 then i + n else i in
  if (0 <=? j) && (j <? n) then
    match nth_error l (Z.to_nat j) with
    | Some x => Ok x
    | None => Raise (IndexError "list index out of range")
    end
  else Raise (IndexError "list index out of range").

(** [s.rfind(sub)] : the highest index at which [sub] occurs, or [-1]. *)
Fixpoint rfind_from (sub s : string) (i : Z) : Z :=
  match s with
  | "" => if String.prefix sub "" then i else -1
  | String _ s' =>
      let r := rfind_from sub s' (i + 1) in
      if 0 <=? r then r
      else if String.prefix sub s then i else -1
  end.

Definition rfind (s sub : string) : Z := rfind_from sub s 0.

(** [s.replace(old, new)] : every non-overlapping occurrence of [old],
    scanning from the left.  [skip] counts the characters of an occurrence
    that has just been replaced and that are still to be dropped.  With an
    empty [old], Python inserts [new] before every character and at the
    end. *)
Fixpoint replace_go (old new : string) (skip : nat) (s : string) : string :=
  match s with
  | "" => ""
  | String c s' =>
      match skip with
      | S k => replace_go old new k s'
      | O =>
          if String.prefix old s
          then new +:+ replace_go old new (String.length old - 1) s'
          else String c (replace_go old new O s')
      end
  end.

Fixpoint intersperse (new s : string) : string :=
  match s with
  | "" => new
  | String c s' => new +:+ String c (intersperse new s')
  end.

Definition replace (s old new : string) : string :=
  match old with
  | "" => intersperse new s
  | _ => replace_go old new O s
  end.

(** [s.split(sep)] for a one-character separator: the fields between the
    separators, of which there is always at least one. *)
Fixpoint split (s : string) (sep : ascii) : list string :=
  match s with
  | "" => [""]
  | String c s' =>
      if Ascii.eqb c sep then "" :: split s' sep
      else
        match split s' sep with
        | field :: fields => String c field :: fields
        | [] => [String c ""]
        end
  end.

(** Every character of [s] satisfies [P]. *)
Fixpoint all_chars (P : ascii -> bool) (s : string) : bool :=
  match s with
  | "" => true
  | String c s' => P c && all_chars P s'
  end.

(** [sub in s] *)
Fixpoint contains (sub s : string) : bool :=
  String.prefix sub s ||
  match s with
  | "" => false
  | String _ s' => contains sub s'
  end.

(** [sep.join(l)] *)
Definition join (sep : string) (l : list string) : string := String.concat sep l.

End Py.

Import Py.

(** ** JSON values, Python dictionaries and the [json] module *)

Module Json.

(** A decoded JSON document as Python sees it.  A [float] keeps its
    literal; a [dict] keeps insertion order. *)
#[warnings="-register-all"]
Inductive json : Type :=
| JNull
| JBool (b : bool)
| JInt (z : Z)
| JFloat (literal : string)
| JStr (s : string)
| JArr (items : list json)
| JObj (fields : list (string * json)).

Definition dict := list (string * json).

Fixpoint dict_get (d : dict) (k : string) : option json :=
  match d with
  | [] => None
  | (k', v) :: d' => if String.eqb k' k then Some v else dict_get d' k
  end.

(** [d[k] = v] : an existing key keeps its position. *)
Fixpoint dict_set (d : dict) (k : string) (v : json) : dict :=
  match d with
  | [] => [(k, v)]
  | (k', v') :: d' =>
      if String.eqb k' k then (k', v) :: d' else (k', v') :: dict_set d' k v
  end.

Fixpoint dict_pop (d : dict) (k : string) : dict :=
  match d with
  | [] => []
  | (k', v') :: d' => if String.eqb k' k then d' else (k', v') :: dict_pop d' k
  end.

Definition dict_update (d e : dict) : dict :=
  fold_left (fun acc kv => dict_set acc (fst kv) (snd kv)) e d.

(** [v[key]] with a string key. *)
Definition subscript (v : json) (key : string) : result json :=
  match v with
  | JObj d =>
      match dict_get d key with
      | Some x => Ok x
      | None => Raise (KeyError key)
      end
  | JArr _ => Raise (TypeError "list indices must be integers or slices, not str")
  | JStr _ => Raise (TypeError "string indices must be integers")
  | _ => Raise (TypeError "object is not subscriptable")
  end.

(** *** Decimal integers *)

Definition digit_char (d : Z) : ascii := ascii_of_nat (48 + Z.to_nat d).

Definition digit_val (c : ascii) : option Z :=
  let n := Z.of_nat (nat_of_ascii c) in
  if (48 <=? n) && (n <=? 57) then Some (n - 48) else None.

Fixpoint dec_go (fuel : nat) (n : Z) (acc : string) : string :=
  match fuel with
  | O => acc
  | S f =>
      let acc' := String (digit_char (n mod 10)) acc in
      if n <? 10 then acc' else dec_go f (n / 10) acc'
  end.

(** [str(n)] for a natural number: [Z.log2 n + 1] bounds the digits. *)
Definition dec (n : Z) : string := dec_go (S (Z.to_nat (Z.log2 n))) n "".

(** [json.dumps(z)] for a Python [int]. *)
Definition dumps_int (z : Z) : string :=
  if z <? 0 then String "-" (dec (- z)) else dec z.

Fixpoint read_digits (acc : Z) (s : string) : Z * string :=
  match s with
  | "" => (acc, "")
  | String c s' =>
      match digit_val c with
      | Some d => read_digits (acc * 10 + d) s'
      | None => (acc, s)
      end
  end.

Fixpoint skip_digits (s : string) : string :=
  match s with
  | "" => ""
  | String c s' =>
      match digit_val c with
      | Some _ => skip_digits s'
      | None => s
      end
  end.

Definition starts_with_digit (s : string) : bool :=
  match s with
  | String c _ => bool_decide (is_Some (digit_val c))
  | "" => false
  end.

(** *** The reference decoder

    A recursive-descent decoder for the JSON grammar: whitespace, the three
    literals, numbers, strings with the two-character escapes, arrays and
    objects.  [\u] escapes and the non-standard [NaN] and [Infinity] are
    outside of it. *)

Definition is_ws (c : ascii) : bool :=
  Ascii.eqb c " " || Ascii.eqb c "009" || Ascii.eqb c "010" || Ascii.eqb c "013".

Fixpoint skip_ws (s : string) : string :=
  match s with
  | "" => ""
  | String c s' => if is_ws c then skip_ws s' else s
  end.

(** The part of [s] consumed up to the suffix [rest]. *)
Definition consumed (s rest : string) : string :=
  take_str (String.length s - String.length rest) s.

(** The optional fraction and exponent of a number. *)
Definition skip_frac (s : string) : string :=
  match s with
  | String c s' =>
      if Ascii.eqb c "." && starts_with_digit s' then skip_digits s' else s
  | "" => s
  end.

Definition skip_exp (s : string) : string :=
  match s with
  | String c s' =>
      if Ascii.eqb c "e" || Ascii.eqb c "E" then
        match s' with
        | String sg s'' =>
            if (Ascii.eqb sg "+" || Ascii.eqb sg "-") && starts_with_digit s''
            then skip_digits s''
            else if starts_with_digit s' then skip_digits s' else s
        | "" => s
        end
      else s
  | "" => s
  end.

(** A number : a leading zero is not followed by a digit; a number with
    neither fraction nor exponent is an [int]. *)
Definition has_sign (sign : ascii) (s : string) : bool :=
  match s with
  | String c _ => Ascii.eqb c sign
  | "" => false
  end.

Definition tail (s : string) : string :=
  match s with
  | String _ s' => s'
  | "" => ""
  end.

Definition scan_number (s : string) : option (json * string) :=
  let neg := has_sign "-" s in
  let s1 := if neg then tail s else s in
  match s1 with
  | String c s2 =>
      match digit_val c with
      | None => None
      | Some d =>
          if (d =? 0) && starts_with_digit s2 then None
          else
            let '(n, s3) := read_digits 0 s1 in
            let s4 := skip_exp (skip_frac s3) in
            if String.eqb s4 s3
            then Some (JInt (if neg then - n else n), s3)
            else Some (JFloat (consumed s s4), s4)
      end
  | "" => None
  end.

Definition dquote : ascii := "034"%char.

(** The character a two-character escape stands for. *)
Definition unescape (e : ascii) : option ascii :=
  if Ascii.eqb e dquote then Some dquote
  else if Ascii.eqb e "\" then Some "\"%char
  else if Ascii.eqb e "/" then Some "/"%char
  else if Ascii.eqb e "b" then Some "008"%char
  else if Ascii.eqb e "f" then Some "012"%char
  else if Ascii.eqb e "n" then Some "010"%char
  else if Ascii.eqb e "r" then Some "013"%char
  else if Ascii.eqb e "t" then Some "009"%char
  else None.

(** The characters of a string up to its closing quote. *)
Fixpoint scan_string (acc : string) (s : string) : option (string * string) :=
  match s with
  | "" => None
  | String c s' =>
      if Ascii.eqb c dquote then Some (String.rev acc, s')
      else if Ascii.eqb c "\" then
        match s' with
        | String e s'' =>
            match unescape e with
            | Some c' => scan_string (String c' acc) s''
            | None => None
            end
        | "" => None
        end
      else if (nat_of_ascii c <? 32)%nat then None
      else scan_string (String c acc) s'
  end.

Definition expect (kw : string) (v : json) (s : string) : option (json * string) :=
  if String.prefix kw s
  then Some (v, String.substring (String.length kw) (String.length s - String.length kw) s)
  else None.

Fixpoint parse_value (fuel : nat) (s : string) : option (json * string) :=
  match fuel with
  | O => None
  | S f =>
      match s with
      | "" => None
      | String c r =>
          if Ascii.eqb c "{" then
            match skip_ws r with
            | "" => None
            | String c' r' =>
                if Ascii.eqb c' "}" then Some (JObj [], r')
                else
                  match parse_members f [] (String c' r') with
                  | Some (d, r'') => Some (JObj d, r'')
                  | None => None
                  end
            end
          else if Ascii.eqb c "[" then
            match skip_ws r with
            | "" => None
            | String c' r' =>
                if Ascii.eqb c' "]" then Some (JArr [], r')
                else
                  match parse_elements f [] (String c' r') with
                  | Some (l, r'') => Some (JArr l, r'')
                  | None => None
                  end
            end
          else if Ascii.eqb c dquote then
            match scan_string "" r with
            | Some (str, r') => Some (JStr str, r')
            | None => None
            end
          else if Ascii.eqb c "n" then expect "null" JNull s
          else if Ascii.eqb c "t" then expect "true" (JBool true) s
          else if Ascii.eqb c "f" then expect "false" (JBool false) s
          else scan_number s
      end
  end
with parse_elements (fuel : nat) (acc : list json) (s : string)
  : option (list json * string) :=
  match fuel with
  | O => None
  | S f =>
      match parse_value f s with
      | Some (v, r) =>
          match skip_ws r with
          | "" => None
          | String c r' =>
              if Ascii.eqb c "]" then Some (rev (v :: acc), r')
              else if Ascii.eqb c "," then parse_elements f (v :: acc) (skip_ws r')
              else None
          end
      | None => None
      end
  end
with parse_members (fuel : nat) (acc : dict) (s : string)
  : option (dict * string) :=
  match fuel with
  | O => None
  | S f =>
      match s with
      | "" => None
      | String q r =>
          if Ascii.eqb q dquote then
            match scan_string "" r with
            | Some (k, r1) =>
                match skip_ws r1 with
                | "" => None
                | String c r2 =>
                    if Ascii.eqb c ":" then
                      match parse_value f (skip_ws r2) with
                      | Some (v, r3) =>
                          match skip_ws r3 with
                          | "" => None
                          | String c' r4 =>
                              if Ascii.eqb c' "}" then Some (dict_set acc k v, r4)
                              else if Ascii.eqb c' ","
                              then parse_members f (dict_set acc k v) (skip_ws r4)
                              else None
                          end
                      | None => None
                      end
                    else None
                end
            | None => None
            end
          else None
      end
  end.

(** [json.loads(s)] : one value, surrounded by optional whitespace. *)
Definition loads (s : string) : result json :=
  match parse_value (2 * String.length s + 2) (skip_ws s) with
  | Some (v, r) =>
      match skip_ws r with
      | "" => Ok v
      | _ => Raise (JSONDecodeError "Extra data")
      end
  | None => Raise (JSONDecodeError "Expecting value")
  end.

End Json.

Import Json.

(** [pd.io.json.json_normalize] and data frames.  A frame is the list of
    its rows, a row the flattened record. *)

Module Pandas.

Definition row := dict.
Definition DataFrame := list row.

(** [nested_to_record] : the values that are dictionaries are replaced by
    their own entries, under the key path joined with a dot. *)
Fixpoint nested_to_record (level : nat) (prefix : string) (v : json) {struct v} : dict :=
  match v with
  | JObj d =>
      (fix items (rest : dict) (new_d : dict) {struct rest} : dict :=
         match rest with
         | [] => new_d
         | (k, x) :: rest' =>
             let newkey :=
               match level with
               | O => k
               | S _ => prefix +:+ "." +:+ k
               end in
             match x with
             | JObj _ =>
                 items rest'
                   (dict_update (dict_pop new_d k) (nested_to_record (S level) newkey x))
             | _ =>
                 match level with
                 | O => items rest' new_d
                 | S _ => items rest' (dict_set (dict_pop new_d k) newkey x)
                 end
             end
         end) d d
  | _ => []
  end.

Definition is_dict (v : json) : bool :=
  match v with JObj _ => true | _ => false end.

(** [json_normalize(data)] without a record path: an empty list gives the
    empty frame, a dictionary is a one-record list, and the records of a
    list must be dictionaries. *)
Definition json_normalize (data : json) : result DataFrame :=
  match data with
  | JArr [] => Ok []
  | JObj _ => Ok [nested_to_record O "" data]
  | JArr l =>
      if forallb is_dict l then Ok (map (nested_to_record O "") l)
      else Raise (AttributeError "object has no attribute 'values'")
  | JStr _ => Raise (AttributeError "'str' object has no attribute 'values'")
  | _ => Raise (TypeError "object is not iterable")
  end.

(** [df.head(n)] *)
Definition head (n : nat) (df : DataFrame) : DataFrame := firstn n df.

End Pandas.

(** ** The outside world: SDK, boto3, clock and console *)

Module Sdk.

(** [sagemaker.list_training_jobs] *)
Record ListTrainingJobsRequest : Type := {
  NameContains : string;
  SortBy : string;
  SortOrder : string;
  StatusEquals : string
}.

Record TrainingJobSummary : Type := {
  TrainingJobName : string;
  CreationTime : Z;
  TrainingJobStatus : string
}.

Record ListTrainingJobsResponse : Type := {
  TrainingJobSummaries : list TrainingJobSummary
}.

(** [sagemaker.describe_training_job] : [response['ModelArtifacts']] *)
Record ModelArtifacts_t : Type := {
  S3ModelArtifacts : string
}.

Record DescribeTrainingJobResponse : Type := {
  ModelArtifacts : ModelArtifacts_t
}.

(** [s3.list_objects] : the response has no ['Contents'] entry when no key
    matches, and [result.get('Contents')] is then [None]. *)
Record S3Object : Type := {
  Key : string
}.

Record ListObjectsResponse : Type := {
  Contents : option (list S3Object)
}.

Record XGBoostModel : Type := {
  model_data : string;
  entry_point : string;
  source_dir : string;
  name : string;
  code_location : string;
  framework_version : string;
  model_role : string
}.

Record DataCaptureConfig : Type := {
  enable_capture : bool;
  sampling_percentage : Z;
  destination_s3_uri : string
}.

Inductive serializer_t : Type := DefaultSerializer | CSVSerializer.
Inductive deserializer_t : Type := DefaultDeserializer | JSONDeserializer.

(** The predictor returned by [deploy]; the notebook assigns its serializer
    and deserializer. *)
Record Predictor : Type := {
  endpoint_name : string;
  serializer : serializer_t;
  deserializer : deserializer_t
}.

Record DefaultModelMonitor : Type := {
  role : string;
  instance_count : Z;
  instance_type : string;
  volume_size_in_gb : Z;
  max_runtime_in_seconds : Z
}.

Record CopySource : Type := {
  Bucket : string;
  SourceKey : string
}.

(** The calls of the notebook, each with the type of what it returns. *)
Inductive call : Type -> Type :=
| RegionName : call string
| GetExecutionRole : call string
| DefaultBucket : call string
| Strftime (format : string) : call string
| Sleep (seconds : string) : call unit
| Print (value : json) : call unit
| ReadFile (path : string) : call string
| RandomNormal (loc scale : string) (size : nat) : call (list string)
| ListTrainingJobs (request : ListTrainingJobsRequest) : call ListTrainingJobsResponse
| DescribeTrainingJob (job_name : string) : call DescribeTrainingJobResponse
| Deploy (model : XGBoostModel) (initial_instance_count : Z)
    (instance : string) (endpoint : string) (data_capture_config : DataCaptureConfig)
  : call Predictor
| Predict (pred : Predictor) (data : string) : call json
| ListObjects (bucket : string) (prefix : string) : call ListObjectsResponse
| ObjectsFilter (bucket : string) (prefix : string) : call (list string)
| BucketCopy (bucket : string) (copy_source : CopySource) (key : string) : call unit
| UploadFile (bucket : string) (key : string) (filename : string) : call unit
| SuggestBaseline (monitor : DefaultModelMonitor) (baseline_dataset : string)
    (header : bool) (output_s3_uri : string) (wait : bool) : call unit
| LatestBaselineStatistics (monitor : DefaultModelMonitor) : call json
| LatestSuggestedConstraints (monitor : DefaultModelMonitor) : call json
| BaselineStatistics (monitor : DefaultModelMonitor) : call string
| SuggestedConstraints (monitor : DefaultModelMonitor) : call string
| CreateMonitoringSchedule (monitor : DefaultModelMonitor)
    (monitor_schedule_name endpoint_input post_analytics_processor_script
     output_s3_uri statistics constraints schedule_cron_expression : string)
    (enable_cloudwatch_metrics : bool) : call unit
| DescribeSchedule (monitor : DefaultModelMonitor) : call json
| DeleteMonitoringSchedule (monitor : DefaultModelMonitor) : call unit
| RunModelMonitorJobProcessor (region instance role data_capture_path
    statistics_path constraints_path reports_path postprocessor_path : string)
  : call unit
| DeleteEndpoint (pred : Predictor) : call unit
| DeleteModel (pred : Predictor) : call unit.

(** Programs over these calls: the cells of the notebook.  [TryExcept] is
    Python's [try: ... except: ...] with a bare [except]. *)
Inductive prog (A : Type) : Type :=
| Ret (a : A)
| Throw (e : exn)
| Vis {X : Type} (c : call X) (k : X -> prog A)
| TryExcept {B : Type} (body handler : prog B) (k : B -> prog A).
Arguments Ret {A} a.
Arguments Throw {A} e.
Arguments Vis {A X} c k.
Arguments TryExcept {A B} body handler k.

Fixpoint bind {A B} (p : prog A) (f : A -> prog B) : prog B :=
  match p with
  | Ret a => f a
  | Throw e => Throw e
  | Vis c k => Vis c (fun x => bind (k x) f)
  | TryExcept body handler k => TryExcept body handler (fun b => bind (k b) f)
  end.

Definition do {X} (c : call X) : prog X := Vis c Ret.

Definition lift {A} (r : result A) : prog A :=
  match r with
  | Ok a => Ret a
  | Raise e => Throw e
  end.

Definition try_except {A} (body handler : prog A) : prog A :=
  TryExcept body handler Ret.

(** [for x in l: body x] *)
Fixpoint for_each {A} (l : list A) (body : A -> prog unit) : prog unit :=
  match l with
  | [] => Ret tt
  | x :: l' => bind (body x) (fun _ => for_each l' body)
  end.

End Sdk.

Import Sdk.

Declare Scope prog_scope.
Delimit Scope prog_scope with prog.
Notation "x <- p ;; q" := (bind p (fun x => q))
  (at level 100, p at next level, right associativity) : prog_scope.
Notation "p ;; q" := (bind p (fun _ => q))
  (at level 100, right associativity) : prog_scope.

Local Open Scope prog_scope.

(** ** The cells of the notebook *)

Module Notebook.

Definition prefix : string := "aim362".

(** ['s3://{0}/{1}'.format(bucket, key)] *)
Definition s3_uri (bucket key : string) : string :=
  "s3://" +:+ bucket +:+ "/" +:+ key.

(** Iterating over [result.get('Contents')], which may be [None]. *)
Definition iter {A} (o : option (list A)) : result (list A) :=
  match o with
  | Some l => Ok l
  | None => Raise (TypeError "'NoneType' object is not iterable")
  end.

Definition print (s : string) : prog unit := do (Print (JStr s)).

(** *** Setting the variables *)

Definition setup : prog (string * string * string) :=
  region <- do RegionName ;;
  role <- do GetExecutionRole ;;
  bucket_name <- do DefaultBucket ;;
  print region ;;
  print role ;;
  print bucket_name ;;
  Ret (region, role, bucket_name).

(** *** Deployment with data capture *)

Definition get_latest_training_job_name (base_job_name : string) : prog string :=
  response <- do (ListTrainingJobs
                    {| NameContains := base_job_name;
                       SortBy := "CreationTime";
                       SortOrder := "Descending";
                       StatusEquals := "Completed" |}) ;;
  if 0 <? Z.of_nat (length (TrainingJobSummaries response)) then
    first <- lift (index (TrainingJobSummaries response) 0) ;;
    Ret (TrainingJobName first)
  else Throw (Exception "Training job not found.").

Definition get_training_job_s3_model_artifacts (job_name : string) : prog string :=
  response <- do (DescribeTrainingJob job_name) ;;
  let s3_model_artifacts := S3ModelArtifacts (ModelArtifacts response) in
  Ret s3_model_artifacts.

Definition locate_artifact : prog (string * string) :=
  latest_training_job_name <- get_latest_training_job_name "nw-traffic-classification-xgb" ;;
  print latest_training_job_name ;;
  model_path <- get_training_job_s3_model_artifacts latest_training_job_name ;;
  print model_path ;;
  Ret (latest_training_job_name, model_path).

Definition create_model (role bucket_name model_path : string) : prog XGBoostModel :=
  stamp <- do (Strftime "%Y-%m-%d-%H-%M-%S") ;;
  let model_name := "nw-traffic-classification-xgb-model-" +:+ stamp in
  let code_location := "s3://" +:+ bucket_name +:+ "/" +:+ prefix +:+ "/code" in
  Ret {| model_data := model_path;
         entry_point := "deploy_xgboost.py";
         source_dir := "source_dir/";
         name := model_name;
         code_location := code_location;
         framework_version := "0.90-2";
         model_role := role |}.

Definition s3_capture_upload_path (bucket_name : string) : string :=
  "s3://" +:+ bucket_name +:+ "/" +:+ prefix +:+ "/monitoring/datacapture".

Definition capture_config (bucket_name : string) : DataCaptureConfig :=
  {| enable_capture := true;
     sampling_percentage := 100;
     destination_s3_uri := s3_capture_upload_path bucket_name |}.

Definition deploy (bucket_name : string) (xgboost_model : XGBoostModel) : prog Predictor :=
  print (s3_capture_upload_path bucket_name) ;;
  stamp <- do (Strftime "%Y-%m-%d-%H-%M-%S") ;;
  let endpoint_name := "nw-traffic-classification-xgb-ep-" +:+ stamp in
  print endpoint_name ;;
  do (Deploy xgboost_model 1 "ml.m5.xlarge" endpoint_name (capture_config bucket_name)).

(** *** Inference *)

(** Expecting class 4 *)
Definition test_values_class4 : string :=
  "80,1056736,3,4,20,964,20,0,6.666666667,11.54700538,964,0,241.0,482.0,931.1691850999999,6.6241710320000005,176122.6667,431204.4454,1056315,2,394,197.0,275.77164469999997,392,2,1056733,352244.3333,609743.1115,1056315,24,0,0,0,0,72,92,2.8389304419999997,3.78524059,0,964,123.0,339.8873763,115523.4286,0,0,1,1,0,0,0,1,1.0,140.5714286,6.666666667,241.0,0.0,0.0,0.0,0.0,0.0,0.0,3,20,4,964,8192,211,1,20,0.0,0.0,0,0,0.0,0.0,0,0,20,2,2018,1,0,1,0".

(** Expecting class 7 *)
Definition test_values_class7 : string :=
  "80,10151,2,0,0,0,0,0,0.0,0.0,0,0,0.0,0.0,0.0,197.0249237,10151.0,0.0,10151,10151,10151,10151.0,0.0,10151,10151,0,0.0,0.0,0,0,0,0,0,0,40,0,197.0249237,0.0,0,0,0.0,0.0,0.0,0,0,0,0,1,0,0,0,0.0,0.0,0.0,0.0,0.0,0.0,0.0,0.0,0.0,0.0,2,0,0,0,32738,-1,0,20,0.0,0.0,0,0,0.0,0.0,0,0,21,2,2018,2,0,1,0".

Definition with_serializers (pred : Predictor) : Predictor :=
  {| endpoint_name := endpoint_name pred;
     serializer := CSVSerializer;
     deserializer := JSONDeserializer |}.

Definition invoke (pred : Predictor) : prog Predictor :=
  let pred := with_serializers pred in
  result <- do (Predict pred test_values_class4) ;;
  do (Print result) ;;
  result <- do (Predict pred test_values_class7) ;;
  do (Print result) ;;
  Ret pred.

(** *** Listing the capture files *)

Definition current_endpoint_capture_prefix (endpoint_name : string) : string :=
  prefix +:+ "/monitoring/datacapture/" +:+ endpoint_name.

Definition list_capture_files (bucket_name capture_prefix : string) : prog (list string) :=
  result <- do (ListObjects bucket_name capture_prefix) ;;
  contents <- lift (iter (Contents result)) ;;
  let capture_files := map (fun capture_file => s3_uri bucket_name (Key capture_file)) contents in
  print "Capture Files: " ;;
  print (join (String "010" " ") capture_files) ;;
  Ret capture_files.

(** *** Baselining *)

Definition bucket_key_prefix : string := "aim362/data/val/".

Definition target_key (key : string) : string :=
  replace (replace key "data/val/" "monitoring/baselining/data/") ".part" ".csv".

Definition copy_baseline_data (bucket_name : string) : prog unit :=
  objects <- do (ObjectsFilter bucket_name bucket_key_prefix) ;;
  for_each objects (fun key =>
    print ("Copying " +:+ key +:+ " to " +:+ target_key key +:+ " ...") ;;
    let copy_source := {| Bucket := bucket_name; SourceKey := key |} in
    do (BucketCopy bucket_name copy_source (target_key key))).

Definition baseline_data_path (bucket_name : string) : string :=
  "s3://" +:+ bucket_name +:+ "/" +:+ prefix +:+ "/monitoring/baselining/data".

Definition baseline_results_path (bucket_name : string) : string :=
  "s3://" +:+ bucket_name +:+ "/" +:+ prefix +:+ "/monitoring/baselining/results".

Definition baseline_paths (bucket_name : string) : prog unit :=
  print (baseline_data_path bucket_name) ;;
  print (baseline_results_path bucket_name).

Definition my_default_monitor (role : string) : DefaultModelMonitor :=
  {| Sdk.role := role;
     instance_count := 1;
     instance_type := "ml.c5.4xlarge";
     volume_size_in_gb := 20;
     max_runtime_in_seconds := 3600 |}.

Definition suggest_baseline (monitor : DefaultModelMonitor) (bucket_name : string) : prog unit :=
  do (SuggestBaseline monitor (baseline_data_path bucket_name) true
        (baseline_results_path bucket_name) true).

(** A cell that ends with [df.head(10)] binds the frame and displays its
    first ten rows: it returns both. *)
Definition schema_df (monitor : DefaultModelMonitor)
  : prog (Pandas.DataFrame * Pandas.DataFrame) :=
  statistics <- do (LatestBaselineStatistics monitor) ;;
  features <- lift (subscript statistics "features") ;;
  schema_df <- lift (Pandas.json_normalize features) ;;
  Ret (schema_df, Pandas.head 10 schema_df).

Definition constraints_df (monitor : DefaultModelMonitor)
  : prog (Pandas.DataFrame * Pandas.DataFrame) :=
  constraints <- do (LatestSuggestedConstraints monitor) ;;
  features <- lift (subscript constraints "features") ;;
  constraints_df <- lift (Pandas.json_normalize features) ;;
  Ret (constraints_df, Pandas.head 10 constraints_df).

(** *** Generating violations artificially *)

(** The second field is left empty and the ninth is to be the sampled
    value. *)
Definition artificial_values : string :=
  "22,,40.3,0,0,0,0,0,{0},0.0,0,0,0.0,0.0,0.0,0.0368169318,54322832.0,0.0,54322832,54322832,54322832,54322832.0,0.0,54322832,54322832,0,0.0,0.0,0,0,0,0,0,0,40,0,0.0368169318,0.0,0,0,0.0,0.0,0.0,0,0,0,0,1,0,0,0,0.0,0.0,0.0,0.0,0.0,0.0,0.0,0.0,0.0,0.0,2,0,0,0,279,-1,0,20,0.0,0.0,0,0,0.0,0.0,0,0,23,2,2018,4,0,1,0".

(** [template.format(x)] for a template whose only replacement field is
    [{0}]. *)
Definition format (template x : string) : string := replace template "{0}" x.

Definition generate_violations (pred : Predictor) : prog unit :=
  dist_values <- do (RandomNormal "1" "0.2" 1000) ;;
  for_each (seq 0 1000) (fun i =>
    x <- lift (index dist_values (Z.of_nat i)) ;;
    do (Predict pred (format artificial_values x)) ;;
    do (Sleep "0.15") ;;
    if (0 <? Z.of_nat i) && (Z.of_nat i mod 100 =? 0)
    then print ("Executed " +:+ dec (Z.of_nat i) +:+ " inferences.")
    else Ret tt).

(** *** Monitoring *)

Definition postprocessor_path (bucket_name : string) : string :=
  "s3://" +:+ bucket_name +:+ "/" +:+ prefix +:+ "/monitoring/code/postprocessor.py".

Definition reports_path (bucket_name : string) : string :=
  "s3://" +:+ bucket_name +:+ "/" +:+ prefix +:+ "/monitoring/reports".

Definition upload_postprocessor (bucket_name : string) : prog unit :=
  let monitoring_code_prefix := prefix +:+ "/monitoring/code" in
  print monitoring_code_prefix ;;
  do (UploadFile bucket_name (monitoring_code_prefix +:+ "/postprocessor.py") "postprocessor.py") ;;
  print (postprocessor_path bucket_name) ;;
  print (reports_path bucket_name).

(** [CronExpressionGenerator.hourly()] *)
Definition hourly : string := "cron(0 * ? * * *)".

Definition create_monitoring_schedule
  (monitor : DefaultModelMonitor) (pred : Predictor) (bucket_name : string) : prog string :=
  let endpoint_name := endpoint_name pred in
  stamp <- do (Strftime "%Y-%m-%d-%H-%M-%S") ;;
  let mon_schedule_name := "nw-traffic-classification-xgb-mon-sch-" +:+ stamp in
  statistics <- do (BaselineStatistics monitor) ;;
  constraints <- do (SuggestedConstraints monitor) ;;
  do (CreateMonitoringSchedule monitor mon_schedule_name endpoint_name
        (postprocessor_path bucket_name) (reports_path bucket_name)
        statistics constraints hourly true) ;;
  Ret mon_schedule_name.

Definition describe_schedule (monitor : DefaultModelMonitor) : prog json :=
  desc_schedule_result <- do (DescribeSchedule monitor) ;;
  Ret desc_schedule_result.

Definition delete_monitoring_schedule (monitor : DefaultModelMonitor) : prog unit :=
  do (DeleteMonitoringSchedule monitor).

(** *** Triggering execution manually *)

Definition data_capture_path (capture_files : list string) : result string :=
  rbind (index capture_files (Z.of_nat (length capture_files) - 1))
    (fun last => Ok (slice_to last (rfind last "/"))).

Definition statistics_path (bucket_name : string) : string :=
  baseline_results_path bucket_name +:+ "/statistics.json".

Definition constraints_path (bucket_name : string) : string :=
  baseline_results_path bucket_name +:+ "/constraints.json".

Definition manual_trigger_paths (bucket_name capture_prefix : string) : prog string :=
  capture_files <- list_capture_files bucket_name capture_prefix ;;
  data_capture_path <- lift (data_capture_path capture_files) ;;
  print data_capture_path ;;
  print (postprocessor_path bucket_name) ;;
  print (statistics_path bucket_name) ;;
  print (constraints_path bucket_name) ;;
  print (reports_path bucket_name) ;;
  Ret data_capture_path.

Definition manual_trigger (region role bucket_name data_capture_path : string) : prog unit :=
  do (RunModelMonitorJobProcessor region "ml.m5.xlarge" role data_capture_path
        (statistics_path bucket_name) (constraints_path bucket_name)
        (reports_path bucket_name) (postprocessor_path bucket_name)).

(** *** Analysis *)

(** When the [except] branch runs, [monitoring_reports] is left unbound:
    the cell returns [None]. *)
Definition list_monitoring_reports (bucket_name : string) (pred : Predictor)
  : prog (option (list string)) :=
  let monitoring_reports_prefix := prefix +:+ "/monitoring/reports/" +:+ endpoint_name pred in
  result <- do (ListObjects bucket_name monitoring_reports_prefix) ;;
  try_except
    (contents <- lift (iter (Contents result)) ;;
     let monitoring_reports :=
       map (fun capture_file => s3_uri bucket_name (Key capture_file)) contents in
     print "Monitoring Reports Files: " ;;
     print (join (String "010" " ") monitoring_reports) ;;
     Ret (Some monitoring_reports))
    (print "No monitoring reports found." ;;
     Ret None).

Definition violations_df : prog (Pandas.DataFrame * Pandas.DataFrame) :=
  data <- do (ReadFile "monitoring/constraint_violations.json") ;;
  document <- lift (loads data) ;;
  violations <- lift (subscript document "violations") ;;
  violations_df <- lift (Pandas.json_normalize violations) ;;
  Ret (violations_df, Pandas.head 10 violations_df).

Section Dumps.

(** [json.dumps(value, indent=n)] renders floats; it is left to the
    caller. *)
Variable json_dumps : json -> Z -> string.

Definition show_capture_record : prog unit :=
  data <- do (ReadFile "datacapture/captured_data_example.jsonl") ;;
  line <- lift (index (split data "010") 0) ;;
  record <- lift (loads line) ;;
  print (json_dumps record 2).

Definition show_monitoring_config : prog unit :=
  data <- do (ReadFile "baseline/constraints.json") ;;
  document <- lift (loads data) ;;
  monitoring_config <- lift (subscript document "monitoring_config") ;;
  print (json_dumps monitoring_config 2).

End Dumps.

(** *** Tearing down *)

Definition delete_endpoint (pred : Predictor) : prog unit :=
  do (DeleteEndpoint pred) ;;
  do (DeleteModel pred).

(** *** The steps of the flow, in the order of the notebook *)

Inductive step : Type :=
| CellSetup
| CellLocateArtifact
| CellCreateModel (role bucket_name model_path : string)
| CellDeploy (bucket_name : string) (xgboost_model : XGBoostModel)
| CellInvoke (pred : Predictor)
| CellListCaptureFiles (bucket_name endpoint_name : string)
| CellShowCaptureRecord (json_dumps : json -> Z -> string)
| CellCopyBaselineData (bucket_name : string)
| CellBaselinePaths (bucket_name : string)
| CellSuggestBaseline (role bucket_name : string)
| CellSchemaDf (role : string)
| CellConstraintsDf (role : string)
| CellGenerateViolations (pred : Predictor)
| CellUploadPostprocessor (bucket_name : string)
| CellCreateSchedule (role : string) (pred : Predictor) (bucket_name : string)
| CellDescribeSchedule (role : string)
| CellDeleteSchedule (role : string)
| CellManualTriggerPaths (bucket_name endpoint_name : string)
| CellManualTrigger (region role bucket_name data_capture_path : string)
| CellListMonitoringReports (bucket_name : string) (pred : Predictor)
| CellViolationsDf
| CellShowMonitoringConfig (json_dumps : json -> Z -> string)
| CellDeleteEndpoint (pred : Predictor).

Definition void {A} (p : prog A) : prog unit := p ;; Ret tt.

Definition cell (s : step) : prog unit :=
  match s with
  | CellSetup => void setup
  | CellLocateArtifact => void locate_artifact
  | CellCreateModel role bucket_name model_path =>
      void (create_model role bucket_name model_path)
  | CellDeploy bucket_name xgboost_model => void (deploy bucket_name xgboost_model)
  | CellInvoke pred => void (invoke pred)
  | CellListCaptureFiles bucket_name endpoint_name =>
      void (list_capture_files bucket_name (current_endpoint_capture_prefix endpoint_name))
  | CellShowCaptureRecord json_dumps => show_capture_record json_dumps
  | CellCopyBaselineData bucket_name => copy_baseline_data bucket_name
  | CellBaselinePaths bucket_name => baseline_paths bucket_name
  | CellSuggestBaseline role bucket_name =>
      suggest_baseline (my_default_monitor role) bucket_name
  | CellSchemaDf role => void (schema_df (my_default_monitor role))
  | CellConstraintsDf role => void (constraints_df (my_default_monitor role))
  | CellGenerateViolations pred => generate_violations pred
  | CellUploadPostprocessor bucket_name => upload_postprocessor bucket_name
  | CellCreateSchedule role pred bucket_name =>
      void (create_monitoring_schedule (my_default_monitor role) pred bucket_name)
  | CellDescribeSchedule role => void (describe_schedule (my_default_monitor role))
  | CellDeleteSchedule role => delete_monitoring_schedule (my_default_monitor role)
  | CellManualTriggerPaths bucket_name endpoint_name =>
      void (manual_trigger_paths bucket_name (current_endpoint_capture_prefix endpoint_name))
  | CellManualTrigger region role bucket_name data_capture_path =>
      manual_trigger region role bucket_name data_capture_path
  | CellListMonitoringReports bucket_name pred =>
      void (list_monitoring_reports bucket_name pred)
  | CellViolationsDf => void violations_df
  | CellShowMonitoringConfig json_dumps => show_monitoring_config json_dumps
  | CellDeleteEndpoint pred => delete_endpoint pred
  end.

Definition is_report_listing (s : step) : bool :=
  match s with
  | CellListMonitoringReports _ _ => true
  | _ => false
  end.

(** *** The properties of the requests *)

(** A decimal numeral: an optional sign, digits, an optional fraction and
    an optional exponent. *)
Definition is_numeric (s : string) : bool :=
  let s1 := if has_sign "-" s || has_sign "+" s then tail s else s in
  starts_with_digit s1 && String.eqb (skip_exp (skip_frac (skip_digits s1))) "".

Definition line_char (c : ascii) : bool :=
  negb (Ascii.eqb c "010") && negb (Ascii.eqb c "013").

Definition single_line (s : string) : bool := all_chars line_char s.

(** A request whose fields are all numeric. *)
Definition numeric_row (n : nat) (data : string) : bool :=
  single_line data
  && (length (split data ",") =? n)%nat
  && forallb is_numeric (split data ",").

(** A request whose second field is empty and whose other fields are
    numeric. *)
Definition gapped_row (n : nat) (data : string) : bool :=
  single_line data
  && (length (split data ",") =? n)%nat
  && match split data "," with
     | first :: second :: others =>
         is_numeric first && String.eqb second "" && forallb is_numeric others
     | _ => false
     end.

(** A request of the flow: 84 fields, all numeric, or all numeric but the
    second, which is empty. *)
Definition request_ok (data : string) : Prop :=
  numeric_row 84 data = true \/ gapped_row 84 data = true.

(** The characters of a decimal numeral. *)
Definition numeric_char (c : ascii) : bool :=
  bool_decide (is_Some (digit_val c))
  || Ascii.eqb c "." || Ascii.eqb c "e" || Ascii.eqb c "E"
  || Ascii.eqb c "+" || Ascii.eqb c "-".

Definition not_comma (c : ascii) : bool := negb (Ascii.eqb c ",").

(** A capture configuration as the platform accepts it. *)
Definition capture_ok (cfg : DataCaptureConfig) : Prop :=
  0 <= sampling_percentage cfg <= 100
  /\ (enable_capture cfg = true -> destination_s3_uri cfg <> "").

Definition deploys_with (P : DataCaptureConfig -> Prop) (X : Type) (c : call X) : Prop :=
  match c with
  | Deploy _ _ _ _ cfg => P cfg
  | _ => True
  end.

Definition predicts_with (P : string -> Prop) (X : Type) (c : call X) : Prop :=
  match c with
  | Predict _ data => P data
  | _ => True
  end.

(** The samples drawn are rendered as decimal numerals. *)
Definition samples_numeric (X : Type) (c : call X) : X -> Prop :=
  match c in call X return X -> Prop with
  | RandomNormal _ _ _ => fun samples => forallb is_numeric samples = true
  | _ => fun _ => True
  end.

End Notebook.

(** ** Running a cell *)

Module Run.

(** What happens during a run: a call is made, and returns or fails with an
    error; the cell itself raises an exception. *)
Inductive entry : Type :=
| Called {X : Type} (c : call X) (failed : option exn)
| Raised (e : exn).

(** The exception an entry brings up, if any. *)
Definition failure (en : entry) : option exn :=
  match en with
  | Called _ failed => failed
  | Raised e => Some e
  end.

Section Run.

(** The world answers every call: it returns or raises, and moves on. *)
Context {W : Type} (answer : forall X, call X -> W -> result X * W).

(** The outcome of a cell, the world it leaves and what happened. *)
Fixpoint run {A} (p : prog A) (w : W) : result A * W * list entry :=
  match p with
  | Ret a => (Ok a, w, [])
  | Throw e => (Raise e, w, [Raised e])
  | Vis c k =>
      match answer _ c w with
      | (Ok x, w') =>
          let '(r, w'', log) := run (k x) w' in
          (r, w'', Called c None :: log)
      | (Raise e, w') => (Raise e, w', [Called c (Some e)])
      end
  | TryExcept body handler k =>
      match run body w with
      | (Ok b, w1, log1) =>
          let '(r, w2, log2) := run (k b) w1 in
          (r, w2, (log1 ++ log2)%list)
      | (Raise _, w1, log1) =>
          match run handler w1 with
          | (Ok b, w2, log2) =>
              let '(r, w3, log3) := run (k b) w2 in
              (r, w3, (log1 ++ log2 ++ log3)%list)
          | (Raise e, w2, log2) => (Raise e, w2, (log1 ++ log2)%list)
          end
      end
  end.

Definition outcome {A} (p : prog A) (w : W) : result A := (run p w).1.1.
Definition final {A} (p : prog A) (w : W) : W := (run p w).1.2.
Definition trace {A} (p : prog A) (w : W) : list entry := (run p w).2.

End Run.

(** A cell without [try]. *)
Inductive no_handler : forall {A}, prog A -> Prop :=
| nh_ret {A} (a : A) : no_handler (Ret a)
| nh_throw {A} (e : exn) : no_handler (@Throw A e)
| nh_vis {A X} (c : call X) (k : X -> prog A) :
    (forall x, no_handler (k x)) -> no_handler (Vis c k).

(** Every call a cell can make satisfies [P], as long as what the calls
    return satisfies [R]. *)
Inductive all_calls (R : forall X, call X -> X -> Prop) (P : forall X, call X -> Prop)
  : forall {A}, prog A -> Prop :=
| ac_ret {A} (a : A) : all_calls R P (Ret a)
| ac_throw {A} (e : exn) : all_calls R P (@Throw A e)
| ac_vis {A X} (c : call X) (k : X -> prog A) :
    P X c -> (forall x, R X c x -> all_calls R P (k x)) -> all_calls R P (Vis c k)
| ac_try {A B} (body handler : prog B) (k : B -> prog A) :
    all_calls R P body -> all_calls R P handler -> (forall b, all_calls R P (k b)) ->
    all_calls R P (TryExcept body handler k).

(** What the world returns satisfies [R]. *)
Definition answers_with {W} (answer : forall X, call X -> W -> result X * W)
  (R : forall X, call X -> X -> Prop) : Prop :=
  forall X (c : call X) (w : W) x, (answer X c w).1 = Ok x -> R X c x.

Definition entry_sat (P : forall X, call X -> Prop) (en : entry) : Prop :=
  match en with
  | Called c _ => P _ c
  | Raised _ => True
  end.

(** The copies a run has made. *)
Definition copy_of (en : entry) : option (string * CopySource * string) :=
  match en with
  | Called (BucketCopy bucket copy_source key) _ => Some (bucket, copy_source, key)
  | _ => None
  end.

End Run.

Import Run.

(** ** A reference model of the platform *)

Module Platform.

Record TrainingJob : Type := {
  job_name : string;
  creation_time : Z;
  status : string;
  artifacts : string
}.

Definition summary (j : TrainingJob) : TrainingJobSummary :=
  {| TrainingJobName := job_name j;
     CreationTime := creation_time j;
     TrainingJobStatus := status j |}.

(** The training jobs of the account, the objects of the store by bucket and
    key, the deployed model, the files of the notebook instance and what
    was printed. *)
Record world : Type := {
  training_jobs : list TrainingJob;
  objects : gmap (string * string) string;
  booster : list string -> Z;
  files : gmap string string;
  console : list json
}.

Definition set_objects (w : world) (o : gmap (string * string) string) : world :=
  {| training_jobs := training_jobs w; objects := o;
     booster := booster w; files := files w; console := console w |}.

Definition set_console (w : world) (c : list json) : world :=
  {| training_jobs := training_jobs w; objects := objects w;
     booster := booster w; files := files w; console := c |}.

(** [open(path, 'r').read()] *)
Definition read_file (fs : gmap string string) (path : string) : result string :=
  match fs !! path with
  | Some data => Ok data
  | None => Raise (FileNotFoundError path)
  end.

(** *** Training jobs *)

Definition job_statuses : list string :=
  ["InProgress"; "Completed"; "Failed"; "Stopping"; "Stopped"].

Definition sort_keys : list string := ["Name"; "CreationTime"; "Status"].

Definition sort_orders : list string := ["Ascending"; "Descending"].

Definition job_leb (sort_by : string) (a b : TrainingJob) : bool :=
  if String.eqb sort_by "CreationTime" then creation_time a <=? creation_time b
  else if String.eqb sort_by "Name" then String.leb (job_name a) (job_name b)
  else String.leb (status a) (status b).

Fixpoint insert_by {A} (leb : A -> A -> bool) (x : A) (l : list A) : list A :=
  match l with
  | [] => [x]
  | y :: l' => if leb x y then x :: l else y :: insert_by leb x l'
  end.

Definition sort_by {A} (leb : A -> A -> bool) (l : list A) : list A :=
  foldr (insert_by leb) [] l.

(** The head of a list is below every element. *)
Definition head_least {A} (leb : A -> A -> bool) (l : list A) : Prop :=
  match l with
  | [] => True
  | h :: _ => forall y, y ∈ l -> leb h y = true
  end.

Definition eligible (request : ListTrainingJobsRequest) (j : TrainingJob) : bool :=
  contains (NameContains request) (job_name j)
  && String.eqb (status j) (StatusEquals request).

(** One page of results: ten summaries unless [MaxResults] is given. *)
Definition max_results : nat := 10.

Definition valid_request (request : ListTrainingJobsRequest) : bool :=
  bool_decide (SortBy request ∈ sort_keys)
  && bool_decide (SortOrder request ∈ sort_orders)
  && bool_decide (StatusEquals request ∈ job_statuses).

Definition list_training_jobs (jobs : list TrainingJob) (request : ListTrainingJobsRequest)
  : result ListTrainingJobsResponse :=
  if valid_request request then
    let matching := List.filter (eligible request) jobs in
    let leb :=
      if String.eqb (SortOrder request) "Descending"
      then fun a b => job_leb (SortBy request) b a
      else job_leb (SortBy request) in
    Ok {| TrainingJobSummaries := firstn max_results (map summary (sort_by leb matching)) |}
  else Raise (ClientError "ValidationException").

Definition describe_training_job (jobs : list TrainingJob) (job : string)
  : result DescribeTrainingJobResponse :=
  match List.find (fun j => String.eqb (job_name j) job) jobs with
  | Some j => Ok {| ModelArtifacts := {| S3ModelArtifacts := artifacts j |} |}
  | None => Raise (ClientError "ValidationException: Requested resource not found.")
  end.

(** *** The object store *)

Definition in_bucket (bucket prefix : string) (bk : string * string) : bool :=
  String.eqb bk.1 bucket && String.prefix prefix bk.2.

(** The keys of a bucket under a prefix, in the order of the listing. *)
Definition keys_under (o : gmap (string * string) string) (bucket prefix : string)
  : list string :=
  merge_sort String.le
    (map snd (List.filter (in_bucket bucket prefix) (map fst (map_to_list o)))).

(** One page of [list_objects]: at most a thousand keys, and no ['Contents']
    when there is none. *)
Definition max_keys : nat := 1000.

Definition list_objects (o : gmap (string * string) string) (bucket prefix : string)
  : ListObjectsResponse :=
  match firstn max_keys (keys_under o bucket prefix) with
  | [] => {| Contents := None |}
  | keys => {| Contents := Some (map Build_S3Object keys) |}
  end.

(** A copy leaves its source in place. *)
Definition copy (o : gmap (string * string) string) (bucket : string)
  (copy_source : CopySource) (key : string)
  : result (gmap (string * string) string) :=
  match o !! (Bucket copy_source, SourceKey copy_source) with
  | Some body => Ok (<[(bucket, key) := body]> o)
  | None => Raise (ClientError "An error occurred (404) when calling the HeadObject operation: Not Found")
  end.

(** *** The endpoint *)

(** Modelled from the spec: the inference entry point
    [source_dir/deploy_xgboost.py], which is deployed with the model and is
    not part of the notebook.  It decodes the comma-separated request, runs
    the prediction, of which the container would return the array, and
    encodes the class value alone. *)
Definition input_fn (request_body : string) : list string :=
  split request_body ",".

Definition predict_fn (model : list string -> Z) (input : list string) : list Z :=
  [model input].

Definition output_fn (prediction : list Z) : result string :=
  rbind (index prediction 0) (fun class => Ok (dumps_int class)).

(** The encoding of the container, as in [[3.0]]. *)
Definition default_output_fn (prediction : list Z) : string :=
  "[" +:+ join ", " (map (fun class => dumps_int class +:+ ".0") prediction) +:+ "]".

Definition invoke_endpoint (model : list string -> Z) (body : string) : result string :=
  output_fn (predict_fn model (input_fn body)).

(** [pred.predict(data)] : [CSVSerializer] leaves a string as it is and
    [JSONDeserializer] decodes the body of the response.  Other
    serializers are outside of the model. *)
Definition predict (model : list string -> Z) (pred : Predictor) (data : string)
  : result json :=
  match serializer pred, deserializer pred with
  | CSVSerializer, JSONDeserializer => rbind (invoke_endpoint model data) loads
  | _, _ => Raise (ClientError "UnsupportedOperation")
  end.

(** *** Answering the calls

    The services outside of the model refuse the call. *)
Definition aws (X : Type) (c : call X) (w : world) : result X * world :=
  match c in call X return result X * world with
  | Print value => (Ok tt, set_console w (console w ++ [value]))
  | Sleep _ => (Ok tt, w)
  | ListTrainingJobs request => (list_training_jobs (training_jobs w) request, w)
  | DescribeTrainingJob job => (describe_training_job (training_jobs w) job, w)
  | ListObjects bucket prefix => (Ok (list_objects (objects w) bucket prefix), w)
  | ObjectsFilter bucket prefix => (Ok (keys_under (objects w) bucket prefix), w)
  | BucketCopy bucket copy_source key =>
      match copy (objects w) bucket copy_source key with
      | Ok o => (Ok tt, set_objects w o)
      | Raise e => (Raise e, w)
      end
  | Predict pred data => (predict (booster w) pred data, w)
  | ReadFile path => (read_file (files w) path, w)
  | _ => (Raise (ClientError "UnsupportedOperation"), w)
  end.

(** *** What the claims speak of *)

(** The request of the artifact locator. *)
Definition latest_request (base_job_name : string) : ListTrainingJobsRequest :=
  {| NameContains := base_job_name; SortBy := "CreationTime";
     SortOrder := "Descending"; StatusEquals := "Completed" |}.

(** A job the locator accepts: completed, with the given string in its
    name. *)
Definition completed_match (base_job_name : string) (j : TrainingJob) : Prop :=
  status j = "Completed" /\ contains base_job_name (job_name j) = true.

Definition not_slash (c : ascii) : bool := negb (Ascii.eqb c "/").

(** An object of the validation data. *)
Definition is_source (key : string) : Prop :=
  String.prefix Notebook.bucket_key_prefix key = true.

(** One copy of the baselining loop, on the store. *)
Definition copy_step (bucket : string) (o : gmap (string * string) string) (key : string)
  : gmap (string * string) string :=
  match o !! (bucket, key) with
  | Some body => <[(bucket, Notebook.target_key key) := body]> o
  | None => o
  end.

(** The copy the loop makes of an object. *)
Definition copy_call (bucket key : string) : string * CopySource * string :=
  (bucket, {| Bucket := bucket; SourceKey := key |}, Notebook.target_key key).

(** *** Worlds used as examples *)

(** A document written with single quotes for the double quotes of JSON. *)
Definition quoted (s : string) : string := replace s "'" (String dquote "").

(** A report of two violations, as the monitoring job writes it. *)
Definition two_violations : string :=
  quoted "{ 'violations' : [ { 'feature_name' : 'Tot Fwd Pkts', 'constraint_check_type' : 'data_type_check', 'description' : 'Data type match requirement is not met.' }, { 'feature_name' : 'Flow Duration', 'constraint_check_type' : 'completeness_check', 'description' : 'Data completeness requirement is not met.' } ] }".

Definition reports_world (report : string) : world :=
  {| training_jobs := []; objects := ∅; booster := fun _ => 0;
     files := {[ "monitoring/constraint_violations.json" := report ]};
     console := [] |}.

(** The deployed model answers class 4 to every request. *)
Definition class4_world : world :=
  {| training_jobs := []; objects := ∅; booster := fun _ => 4; files := ∅; console := [] |}.

(** Validation data in three parts, next to an object of another prefix. *)
Definition validation_world : world :=
  {| training_jobs := [];
     objects :=
       list_to_map
         [(("bucket", "aim362/data/val/part-0.part"), "0,0,0");
          (("bucket", "aim362/data/val/part-1.part"), "1,1,1");
          (("bucket", "aim362/data/val/notes.part.txt"), "notes");
          (("bucket", "aim362/data/train/part-0.part"), "2,2,2")];
     booster := fun _ => 0;
     files := ∅;
     console := [] |}.

(** Two capture files of one endpoint, delivered in two successive hours. *)
Definition capture_world : world :=
  {| training_jobs := [];
     objects :=
       list_to_map
         [(("bucket", "aim362/monitoring/datacapture/ep/AllTraffic/2019/12/03/10/a.jsonl"), "");
          (("bucket", "aim362/monitoring/datacapture/ep/AllTraffic/2019/12/03/11/b.jsonl"), "")];
     booster := fun _ => 0;
     files := ∅;
     console := [] |}.

(** Four training jobs: the latest completed one that matches is the
    third. *)
Definition training_world : world :=
  {| training_jobs :=
       [ {| job_name := "nw-traffic-classification-xgb-1"; creation_time := 10;
            status := "Completed"; artifacts := "s3://bucket/1/model.tar.gz" |};
         {| job_name := "nw-traffic-classification-xgb-2"; creation_time := 30;
            status := "Failed"; artifacts := "s3://bucket/2/model.tar.gz" |};
         {| job_name := "nw-traffic-classification-xgb-3"; creation_time := 20;
            status := "Completed"; artifacts := "s3://bucket/3/model.tar.gz" |};
         {| job_name := "other"; creation_time := 40;
            status := "Completed"; artifacts := "s3://bucket/4/model.tar.gz" |} ];
     objects := ∅;
     booster := fun _ => 0;
     files := ∅;
     console := [] |}.

(** Nothing has been trained, stored or printed. *)
Definition empty_world : world :=
  {| training_jobs := []; objects := ∅; booster := fun _ => 0; files := ∅; console := [] |}.

End Platform.

Import Platform.

(** ** Observing a run *)

Module Lab.

(** The bodies of the inference requests of a run, the values printed and
    the pauses taken, in order. *)
Definition request_of (en : entry) : option string :=
  match en with
  | Called (Predict _ data) _ => Some data
  | _ => None
  end.

Definition printed_of (en : entry) : option json :=
  match en with
  | Called (Print value) _ => Some value
  | _ => None
  end.

Definition sleep_of (en : entry) : option string :=
  match en with
  | Called (Sleep seconds) _ => Some seconds
  | _ => None
  end.

(** The reference world with a source of samples: [sample i] is the
    rendering of the [i]-th value drawn. *)
Definition lab (sample : nat -> string) (X : Type) (c : call X) (w : world)
  : result X * world :=
  match c in call X return result X * world with
  | RandomNormal _ _ size => (Ok (map sample (seq 0 size)), w)
  | c => aws _ c w
  end.

(** The reference world after a baselining job: it answers with the two
    documents the job has produced. *)
Definition baselined (statistics constraints : json) (X : Type) (c : call X) (w : world)
  : result X * world :=
  match c in call X return result X * world with
  | LatestBaselineStatistics _ => (Ok statistics, w)
  | LatestSuggestedConstraints _ => (Ok constraints, w)
  | c => aws _ c w
  end.

(** Statistics of twelve features, and constraints without a list of
    features. *)
Definition twelve_features : json :=
  JObj [("version", JInt 0);
        ("features",
         JArr (map (fun i => JObj [("name", JStr (dec (Z.of_nat i)));
                                   ("inferred_type", JStr "Integral")])
                   (seq 0 12)))].

Definition no_features : json := JObj [("version", JInt 0)].

(** The iterations of the loop after which progress is reported. *)
Definition reports_progress (i : nat) : bool :=
  (0 <? Z.of_nat i) && (Z.of_nat i mod 100 =? 0).

Definition progress_message (i : nat) : json :=
  JStr ("Executed " +:+ dec (Z.of_nat i) +:+ " inferences.").

(** The post-processing script is named by one location in the three steps
    that speak of it. *)
Definition postprocessor_at (bucket_name : string) (X : Type) (c : call X) : Prop :=
  match c with
  | UploadFile bucket key _ =>
      Notebook.s3_uri bucket key = Notebook.postprocessor_path bucket_name
  | CreateMonitoringSchedule _ _ _ script _ _ _ _ _ =>
      script = Notebook.postprocessor_path bucket_name
  | RunModelMonitorJobProcessor _ _ _ _ _ _ _ script =>
      script = Notebook.postprocessor_path bucket_name
  | _ => True
  end.

(** The locations of the reports and of the baseline given to the
    monitoring, scheduled or triggered by hand, and the location [listed]
    under which objects are then listed. *)
Definition monitoring_at (bucket_name endpoint listed : string) (X : Type) (c : call X)
  : Prop :=
  match c with
  | SuggestBaseline _ dataset _ output _ =>
      dataset = Notebook.baseline_data_path bucket_name
      /\ output = Notebook.baseline_results_path bucket_name
  | CreateMonitoringSchedule _ _ endpoint_input _ output _ _ cron _ =>
      endpoint_input = endpoint
      /\ output = Notebook.reports_path bucket_name
      /\ cron = "cron(0 * ? * * *)"
  | RunModelMonitorJobProcessor _ _ _ _ statistics constraints output _ =>
      statistics = Notebook.baseline_results_path bucket_name +:+ "/statistics.json"
      /\ constraints = Notebook.baseline_results_path bucket_name +:+ "/constraints.json"
      /\ output = Notebook.reports_path bucket_name
  | ListObjects bucket prefix =>
      bucket = bucket_name /\ Notebook.s3_uri bucket prefix = listed
  | Deploy _ _ _ _ cfg =>
      destination_s3_uri cfg = Notebook.s3_capture_upload_path bucket_name
  | _ => True
  end.

Definition not_dot (c : ascii) : bool := negb (Ascii.eqb c ".").

Definition not_newline (c : ascii) : bool := negb (Ascii.eqb c "010").

(** *** Worlds used as examples *)

(** The latest completed job has the base name in the middle of its
    name. *)
Definition renamed_world : world :=
  {| training_jobs :=
       [ {| job_name := "nw-traffic-classification-xgb-1"; creation_time := 10;
            status := "Completed"; artifacts := "s3://bucket/1/model.tar.gz" |};
         {| job_name := "copy-of-nw-traffic-classification-xgb-2"; creation_time := 20;
            status := "Completed"; artifacts := "s3://bucket/2/model.tar.gz" |} ];
     objects := ∅;
     booster := fun _ => 0;
     files := ∅;
     console := [] |}.

(** A capture file of two records, the second of which is cut short. *)
Definition capture_file_world : world :=
  {| training_jobs := []; objects := ∅; booster := fun _ => 0;
     files :=
       {[ "datacapture/captured_data_example.jsonl" :=
            quoted "{ 'eventVersion' : '0' }" +:+ String "010" (quoted "{ 'eventVersion' : ") ]};
     console := [] |}.

End Lab.

Import Lab.

(** * Properties *)

(** ** Running programs *)

Section RunFacts.

Context {W : Type} (answer : forall X, call X -> W -> result X * W).

Lemma run_bind {A B} (p : prog A) (f : A -> prog B) (w : W) :
  run answer (bind p f) w =
  match run answer p w with
  | (Ok a, w', log) =>
      let '(r, w'', log') := run answer (f a) w' in (r, w'', (log ++ log')%list)
  | (Raise e, w', log) => (Raise e, w', log)
  end.
Proof.
  revert B f w.
  induction p as [A a|A e|A X c k IH|A C body IHb handler IHh k IHk]; intros B f w; simpl.
  - destruct (run answer (f a) w) as [[r w''] log']. reflexivity.
  - reflexivity.
  - destruct (answer X c w) as [[x|e] w']; [|reflexivity].
    rewrite IH. destruct (run answer (k x) w') as [[[a|e] w''] log]; [|reflexivity].
    destruct (run answer (f a) w'') as [[r w3] log']. reflexivity.
  - destruct (run answer body w) as [[[b|e] w1] log1].
    + rewrite IHk. destruct (run answer (k b) w1) as [[[a|e] w2] log2]; [|reflexivity].
      destruct (run answer (f a) w2) as [[r w3] log3]. by rewrite (assoc_L (++)).
    + destruct (run answer handler w1) as [[[b|e'] w2] log2]; [|reflexivity].
      rewrite IHk. destruct (run answer (k b) w2) as [[[a|e'] w3] log3].
      * destruct (run answer (f a) w3) as [[r w4] log4]. by rewrite !(assoc_L (++)).
      * by rewrite !(assoc_L (++)).
Qed.

Lemma run_do {X} (c : call X) (w : W) :
  run answer (do c) w =
  match answer X c w with
  | (Ok x, w') => (Ok x, w', [Called c None])
  | (Raise e, w') => (Raise e, w', [Called c (Some e)])
  end.
Proof. unfold do. simpl. destruct (answer X c w) as [[x|e] w']; reflexivity. Qed.

Lemma run_lift {A} (r : result A) (w : W) :
  run answer (lift r) w =
  match r with
  | Ok a => (Ok a, w, [])
  | Raise e => (Raise e, w, [Raised e])
  end.
Proof. destruct r; reflexivity. Qed.

(** A cell without [try] stops at the first exception, a failed call or
    an exception of its own, and ends with it. *)
Lemma no_handler_stops {A} (p : prog A) :
  no_handler p ->
  forall (w : W) pre en post e,
    trace answer p w = (pre ++ en :: post)%list ->
    failure en = Some e ->
    post = [] /\ outcome answer p w = Raise e.
Proof.
  unfold trace, outcome.
  induction 1 as [A a|A e0|A X c k Hk IH]; intros w pre en post e Hlog Hen; simpl in *.
  - by destruct pre.
  - destruct pre as [|en' pre]; simplify_eq/=; [done|]. by destruct pre.
  - destruct (answer X c w) as [[x|e1] w'].
    + specialize (IH x w').
      destruct (run answer (k x) w') as [[r w''] log]; simpl in *.
      destruct pre as [|en' pre]; simplify_eq/=.
      eapply IH; eauto.
    + destruct pre as [|en' pre]; simplify_eq/=; [done|].
      by destruct pre.
Qed.

(** The calls made during a run are calls the cell can make. *)
Lemma all_calls_run (R : forall X, call X -> X -> Prop) (P : forall X, call X -> Prop)
  {A} (p : prog A) :
  answers_with answer R ->
  all_calls R P p ->
  forall w, Forall (entry_sat P) (trace answer p w).
Proof.
  intros HR. unfold trace.
  induction 1 as [A a|A e0|A X c k Hc Hk IH|A B body handler k Hb IHb Hh IHh Hk IHk];
    intros w; simpl.
  - constructor.
  - by repeat constructor.
  - destruct (answer X c w) as [[x|e1] w'] eqn:Hans.
    + assert (R X c x) as Hx by (apply (HR X c w); by rewrite Hans).
      specialize (IH x Hx w').
      destruct (run answer (k x) w') as [[r w''] log]; simpl in *.
      constructor; [exact Hc|exact IH].
    + simpl. repeat constructor. exact Hc.
  - specialize (IHb w).
    destruct (run answer body w) as [[[b|e] w1] log1]; simpl in *.
    + specialize (IHk b w1).
      destruct (run answer (k b) w1) as [[r w2] log2]; simpl in *.
      by apply Forall_app.
    + specialize (IHh w1).
      destruct (run answer handler w1) as [[[b|e'] w2] log2]; simpl in *.
      * specialize (IHk b w2).
        destruct (run answer (k b) w2) as [[r w3] log3]; simpl in *.
        rewrite !Forall_app. auto.
      * by apply Forall_app.
Qed.

Lemma outcome_bind {A B} (p : prog A) (f : A -> prog B) (w : W) :
  outcome answer (bind p f) w =
  match outcome answer p w with
  | Ok a => outcome answer (f a) (final answer p w)
  | Raise e => Raise e
  end.
Proof.
  unfold outcome, final. rewrite run_bind.
  destruct (run answer p w) as [[[a|e] w'] log]; [|reflexivity].
  cbn [fst snd]. by destruct (run answer (f a) w') as [[r w''] log'].
Qed.

Lemma final_bind {A B} (p : prog A) (f : A -> prog B) (w : W) :
  final answer (bind p f) w =
  match outcome answer p w with
  | Ok a => final answer (f a) (final answer p w)
  | Raise e => final answer p w
  end.
Proof.
  unfold outcome, final. rewrite run_bind.
  destruct (run answer p w) as [[[a|e] w'] log]; [|reflexivity].
  cbn [fst snd]. by destruct (run answer (f a) w') as [[r w''] log'].
Qed.

Lemma outcome_lift {A} (r : result A) (w : W) : outcome answer (lift r) w = r.
Proof. by destruct r. Qed.

Lemma final_lift {A} (r : result A) (w : W) : final answer (lift r) w = w.
Proof. by destruct r. Qed.

End RunFacts.

(** *** Cells without [try] *)

Lemma no_handler_bind {A B} (p : prog A) (f : A -> prog B) :
  no_handler p -> (forall a, no_handler (f a)) -> no_handler (bind p f).
Proof.
  induction 1 as [A a|A e|A X c k Hk IH]; intros Hf; simpl.
  - apply Hf.
  - constructor.
  - constructor. intros x. by apply IH.
Qed.

Lemma no_handler_do {X} (c : call X) : no_handler (do c).
Proof. constructor. intros x. constructor. Qed.

Lemma no_handler_lift {A} (r : result A) : no_handler (lift r).
Proof. destruct r; constructor. Qed.

Lemma no_handler_for_each {A} (l : list A) (body : A -> prog unit) :
  (forall x, no_handler (body x)) -> no_handler (for_each l body).
Proof.
  intros Hbody. induction l as [|x l IH]; simpl.
  - constructor.
  - apply no_handler_bind; auto.
Qed.

Lemma no_handler_if {A} (b : bool) (p q : prog A) :
  no_handler p -> no_handler q -> no_handler (if b then p else q).
Proof. by destruct b. Qed.

Create HintDb cells.
#[local] Hint Resolve no_handler_bind no_handler_do no_handler_lift
  no_handler_for_each no_handler_if nh_ret nh_throw : cells.

(** ** Failures *)

Import Notebook.

Ltac no_handler_tac :=
  repeat first
    [ progress intros
    | apply nh_ret | apply nh_throw | apply no_handler_do | apply no_handler_lift
    | apply no_handler_for_each | apply no_handler_if | apply no_handler_bind ].

Lemma cell_no_handler (s : step) :
  is_report_listing s = false -> no_handler (cell s).
Proof.
  destruct s; intros Hs; try discriminate;
    unfold cell, void, setup, locate_artifact, get_latest_training_job_name,
      get_training_job_s3_model_artifacts, create_model, deploy, invoke,
      list_capture_files, show_capture_record, copy_baseline_data, baseline_paths,
      suggest_baseline, schema_df, constraints_df, generate_violations,
      upload_postprocessor, create_monitoring_schedule, describe_schedule,
      delete_monitoring_schedule, manual_trigger_paths, list_capture_files,
      manual_trigger, violations_df, show_monitoring_config, delete_endpoint, print;
    cbv zeta; no_handler_tac.
Qed.

Lemma capture_listing_before_delivery (w : world) (bucket_name capture_prefix : string) :
  keys_under (objects w) bucket_name capture_prefix = [] ->
  run aws (list_capture_files bucket_name capture_prefix) w =
  (Raise (TypeError "'NoneType' object is not iterable"), w,
   [Called (ListObjects bucket_name capture_prefix) None;
    Raised (TypeError "'NoneType' object is not iterable")]).
Proof.
  intros Hnone. unfold list_capture_files.
  rewrite run_bind, run_do. cbn [aws]. unfold list_objects. rewrite Hnone.
  rewrite take_nil. reflexivity.
Qed.

Lemma report_listing_recovers (w : world) (bucket_name : string) (pred : Predictor) :
  keys_under (objects w) bucket_name
    (prefix +:+ "/monitoring/reports/" +:+ endpoint_name pred) = [] ->
  run aws (list_monitoring_reports bucket_name pred) w =
  (Ok None, set_console w (console w ++ [JStr "No monitoring reports found."]),
   [Called (ListObjects bucket_name (prefix +:+ "/monitoring/reports/" +:+ endpoint_name pred)) None;
    Raised (TypeError "'NoneType' object is not iterable");
    Called (Print (JStr "No monitoring reports found.")) None]).
Proof.
  intros Hnone. unfold list_monitoring_reports. cbv zeta.
  rewrite run_bind, run_do. cbn [aws]. unfold list_objects. rewrite Hnone.
  rewrite take_nil. reflexivity.
Qed.




(** ** The calls of the cells *)

Section AllCalls.

Context (R : forall X, call X -> X -> Prop) (P : forall X, call X -> Prop).

Lemma all_calls_bind {A B} (p : prog A) (f : A -> prog B) :
  all_calls R P p -> (forall a, all_calls R P (f a)) -> all_calls R P (bind p f).
Proof.
  induction 1 as [A a|A e|A X c k Hc Hk IH|A C body handler k Hb IHb Hh IHh Hk IHk];
    intros Hf; simpl.
  - apply Hf.
  - constructor.
  - constructor; [exact Hc|]. intros x Hx. by apply IH.
  - constructor; [exact Hb|exact Hh|]. intros b. by apply IHk.
Qed.

Lemma all_calls_do {X} (c : call X) : P X c -> all_calls R P (do c).
Proof. intros Hc. constructor; [exact Hc|]. intros x _. constructor. Qed.

Lemma all_calls_do_bind {X B} (c : call X) (f : X -> prog B) :
  P X c -> (forall x, R X c x -> all_calls R P (f x)) -> all_calls R P (bind (do c) f).
Proof. intros Hc Hf. simpl. constructor; [exact Hc|]. exact Hf. Qed.

Lemma all_calls_lift {A} (r : result A) : all_calls R P (lift r).
Proof. destruct r; constructor. Qed.

Lemma all_calls_lift_bind {A B} (r : result A) (f : A -> prog B) :
  (forall a, r = Ok a -> all_calls R P (f a)) -> all_calls R P (bind (lift r) f).
Proof. destruct r as [a|e]; simpl; intros Hf; [by apply Hf|constructor]. Qed.

Lemma all_calls_for_each {A} (l : list A) (body : A -> prog unit) :
  (forall x, x ∈ l -> all_calls R P (body x)) -> all_calls R P (for_each l body).
Proof.
  induction l as [|x l IH]; simpl; intros Hbody.
  - constructor.
  - apply all_calls_bind.
    + apply Hbody. by left.
    + intros _. apply IH. intros y Hy. apply Hbody. by right.
Qed.

Lemma all_calls_if {A} (b : bool) (p q : prog A) :
  all_calls R P p -> all_calls R P q -> all_calls R P (if b then p else q).
Proof. by destruct b. Qed.

Lemma all_calls_try_except {A} (body handler : prog A) :
  all_calls R P body -> all_calls R P handler -> all_calls R P (try_except body handler).
Proof. intros Hb Hh. constructor; [exact Hb|exact Hh|]. intros b. constructor. Qed.

End AllCalls.

Ltac all_calls_step :=
  first
    [ progress intros
    | apply ac_ret | apply ac_throw | apply all_calls_lift
    | apply all_calls_try_except | apply all_calls_if
    | apply all_calls_for_each
    | apply all_calls_do | apply all_calls_bind ].

Ltac unfold_cells :=
  unfold cell, void, setup, locate_artifact, get_latest_training_job_name,
    get_training_job_s3_model_artifacts, create_model, deploy, invoke,
    list_capture_files, show_capture_record, copy_baseline_data, baseline_paths,
    suggest_baseline, schema_df, constraints_df, generate_violations,
    upload_postprocessor, create_monitoring_schedule, describe_schedule,
    delete_monitoring_schedule, manual_trigger_paths, list_capture_files,
    manual_trigger, list_monitoring_reports, violations_df,
    show_monitoring_config, delete_endpoint, print;
  cbv zeta.

(** ** Endpoint deployer *)

Lemma append_cons (c : ascii) (s t : string) : String c s +:+ t = String c (s +:+ t).
Proof. reflexivity. Qed.

Lemma append_nil_l (t : string) : "" +:+ t = t.
Proof. reflexivity. Qed.

Lemma capture_config_ok (bucket_name : string) : capture_ok (capture_config bucket_name).
Proof.
  split.
  - simpl. lia.
  - intros _. unfold capture_config, s3_capture_upload_path. simpl.
    rewrite append_cons. discriminate.
Qed.

(** C5: whatever the world answers, every capture configuration that a
    step of the flow passes to the creation of an endpoint has a sampling
    percentage between 0 and 100 and, capture being enabled, a destination
    that is not empty.  The one configuration the flow builds enables
    capture at 100 percent, to the capture path of the bucket. *)
Theorem capture_configuration_valid :
  forall (s : step) (W : Type) (answer : forall X, call X -> W -> result X * W) (w : W),
    Forall (entry_sat (deploys_with capture_ok)) (trace answer (cell s) w)
    /\ (forall bucket_name,
          capture_ok (capture_config bucket_name)
          /\ enable_capture (capture_config bucket_name) = true
          /\ sampling_percentage (capture_config bucket_name) = 100).
Proof.
  intros s W answer w. split.
  - apply (all_calls_run answer (fun _ _ _ => True)); [by intros ? ? ? ? _|].
    destruct s; unfold_cells;
      repeat first [ all_calls_step | exact I | apply capture_config_ok ].
  - intros bucket_name. split; [apply capture_config_ok|split; reflexivity].
Qed.

(** ** Artifact locator *)

Section Sorting.

Context {A : Type} (leb : A -> A -> bool).
Hypothesis leb_total : forall a b, leb a b = true \/ leb b a = true.
Hypothesis leb_trans : forall a b c, leb a b = true -> leb b c = true -> leb a c = true.

Lemma insert_by_elem (x y : A) (l : list A) :
  y ∈ insert_by leb x l <-> y = x \/ y ∈ l.
Proof.
  induction l as [|z l IH]; simpl.
  - rewrite list_elem_of_singleton, elem_of_nil. tauto.
  - destruct (leb x z).
    + by rewrite elem_of_cons.
    + rewrite !elem_of_cons, IH. tauto.
Qed.

Lemma sort_by_elem (y : A) (l : list A) : y ∈ sort_by leb l <-> y ∈ l.
Proof.
  unfold sort_by. induction l as [|x l IH]; simpl; [done|].
  rewrite insert_by_elem, elem_of_cons, IH. tauto.
Qed.

Lemma insert_by_head_least (x : A) (l : list A) :
  head_least leb l -> head_least leb (insert_by leb x l).
Proof.
  destruct l as [|h t]; simpl.
  - intros _ y ->%list_elem_of_singleton. by destruct (leb_total x x).
  - intros Hh. destruct (leb x h) eqn:Hxh; simpl.
    + intros y [->|Hy]%elem_of_cons.
      * by destruct (leb_total x x).
      * eapply leb_trans; [exact Hxh|by apply Hh].
    + intros y [->|Hy]%elem_of_cons.
      * apply Hh. by left.
      * apply insert_by_elem in Hy as [->|Hy].
        -- destruct (leb_total h x) as [?|?]; [done|congruence].
        -- apply Hh. by right.
Qed.

Lemma sort_by_head_least (l : list A) : head_least leb (sort_by leb l).
Proof.
  unfold sort_by. induction l as [|x l IH]; simpl; [done|].
  by apply insert_by_head_least.
Qed.

End Sorting.

Lemma index_0_cons {A} (a : A) (l : list A) : index (a :: l) 0 = Ok a.
Proof. reflexivity. Qed.

Lemma eligible_completed_match (base_job_name : string) (j : TrainingJob) :
  eligible (latest_request base_job_name) j = true <-> completed_match base_job_name j.
Proof.
  unfold eligible, completed_match. simpl.
  rewrite andb_true_iff, String.eqb_eq. tauto.
Qed.

(** The answer of the platform to the request of the locator: the first
    of the completed jobs that match, latest first. *)
Lemma list_training_jobs_latest (jobs : list TrainingJob) (base_job_name : string) :
  exists sorted,
    list_training_jobs jobs (latest_request base_job_name)
    = Ok {| TrainingJobSummaries := firstn max_results (map summary sorted) |}
    /\ (forall j, j ∈ sorted <-> j ∈ jobs /\ completed_match base_job_name j)
    /\ match sorted with
       | [] => True
       | h :: _ => forall j, j ∈ sorted -> creation_time j <= creation_time h
       end.
Proof.
  set (leb := fun a b : TrainingJob => creation_time b <=? creation_time a).
  exists (sort_by leb (List.filter (eligible (latest_request base_job_name)) jobs)).
  split; [reflexivity|split].
  - intros j. rewrite sort_by_elem, !list_elem_of_In, filter_In.
    by rewrite eligible_completed_match.
  - pose proof (sort_by_head_least leb) as Hleast.
    specialize (Hleast ltac:(intros a b; unfold leb; lia)
                       ltac:(intros a b c; unfold leb; lia)
                       (List.filter (eligible (latest_request base_job_name)) jobs)).
    destruct (sort_by leb _) as [|h t]; [done|].
    intros j Hj. specialize (Hleast j Hj). unfold leb in Hleast. lia.
Qed.

Lemma run_get_latest_training_job_name (w : world) (base_job_name : string) :
  exists sorted,
    (forall j, j ∈ sorted <-> j ∈ training_jobs w /\ completed_match base_job_name j)
    /\ match sorted with
       | [] =>
           run aws (get_latest_training_job_name base_job_name) w
           = (Raise (Exception "Training job not found."), w,
              [Called (ListTrainingJobs (latest_request base_job_name)) None;
               Raised (Exception "Training job not found.")])
       | h :: _ =>
           (forall j, j ∈ sorted -> creation_time j <= creation_time h)
           /\ run aws (get_latest_training_job_name base_job_name) w
              = (Ok (job_name h), w,
                 [Called (ListTrainingJobs (latest_request base_job_name)) None])
       end.
Proof.
  destruct (list_training_jobs_latest (training_jobs w) base_job_name)
    as (sorted & Hanswer & Hsorted & Hhead).
  exists sorted. split; [exact Hsorted|].
  unfold get_latest_training_job_name. rewrite run_bind, run_do. cbn [aws].
  fold (latest_request base_job_name). rewrite Hanswer.
  destruct sorted as [|h t]; [reflexivity|].
  split; [exact Hhead|]. reflexivity.
Qed.

(** C1: among the training jobs of the account, the completed ones whose
    name contains the given string are eligible.  The locator returns the
    name of an eligible job that no eligible job is later than, and the
    artifact location recorded under that name, which is the one of that job
    when job names are unique; it raises [Training job not found.] exactly
    when no job is eligible. *)
Theorem latest_completed_training_job (w : world) (base_job_name : string) :
  match outcome aws (get_latest_training_job_name base_job_name) w with
  | Ok name =>
      exists j,
        j ∈ training_jobs w
        /\ completed_match base_job_name j
        /\ name = job_name j
        /\ (forall j', j' ∈ training_jobs w -> completed_match base_job_name j' ->
                       creation_time j' <= creation_time j)
        /\ exists j0,
             j0 ∈ training_jobs w
             /\ job_name j0 = name
             /\ outcome aws (get_training_job_s3_model_artifacts name) w
                = Ok (artifacts j0)
             /\ (NoDup (map job_name (training_jobs w)) -> j0 = j)
  | Raise e =>
      e = Exception "Training job not found."
      /\ forall j, j ∈ training_jobs w -> ~ completed_match base_job_name j
  end.
Proof.
  destruct (run_get_latest_training_job_name w base_job_name) as (sorted & Hsorted & Hrun).
  unfold outcome. destruct sorted as [|h t].
  - rewrite Hrun. simpl. split; [reflexivity|].
    intros j Hj Hmatch. apply (not_elem_of_nil j), Hsorted. by split.
  - destruct Hrun as [Hhead ->]. simpl.
    assert (h ∈ training_jobs w /\ completed_match base_job_name h) as [Hh Hmatch].
    { apply Hsorted. by left. }
    exists h. split; [exact Hh|]. split; [exact Hmatch|]. split; [reflexivity|].
    split. { intros j' Hj' Hm'. apply Hhead, Hsorted. by split. }
    unfold describe_training_job.
    destruct (List.find _ (training_jobs w)) as [j0|] eqn:Hfind.
    + apply find_some in Hfind as [Hj0 Hname%String.eqb_eq].
      apply list_elem_of_In in Hj0.
      exists j0. split; [exact Hj0|]. split; [exact Hname|]. split; [reflexivity|].
      intros Hnodup.
      apply list_elem_of_lookup in Hj0 as [i Hi], Hh as [i' Hi'].
      assert (i = i') as ->.
      { eapply NoDup_lookup; [exact Hnodup| |];
          rewrite list_lookup_fmap; [rewrite Hi|rewrite Hi']; simpl; by f_equal. }
      congruence.
    + exfalso. apply list_elem_of_In in Hh.
      eapply find_none in Hfind; [|exact Hh]. simpl in Hfind.
      by rewrite String.eqb_refl in Hfind.
Qed.

(** Of the two completed jobs that match, the locator names the later
    one; without any job it raises. *)
Lemma latest_completed_training_job_witness :
  outcome aws (get_latest_training_job_name "nw-traffic-classification-xgb") training_world
  = Ok "nw-traffic-classification-xgb-3"
  /\ outcome aws (get_latest_training_job_name "nw-traffic-classification-xgb") empty_world
     = Raise (Exception "Training job not found.").
Proof.
  split.
  - pose proof (latest_completed_training_job training_world
                  "nw-traffic-classification-xgb") as H.
    destruct (outcome aws _ training_world) as [name|e].
    + destruct H as (j & Hj & [Hstatus Hname] & -> & Hlatest & _).
      assert ({| job_name := "nw-traffic-classification-xgb-3"; creation_time := 20;
                 status := "Completed"; artifacts := "s3://bucket/3/model.tar.gz" |}
              ∈ training_jobs training_world) as Hthird.
      { do 2 right. left. }
      specialize (Hlatest _ Hthird ltac:(split; reflexivity)).
      unfold training_world, training_jobs in Hj.
      repeat (apply elem_of_cons in Hj as [->|Hj]);
        try reflexivity; try discriminate; try (simpl in Hlatest; lia).
      by apply not_elem_of_nil in Hj.
    + destruct H as [_ H].
      exfalso. apply (H {| job_name := "nw-traffic-classification-xgb-3"; creation_time := 20;
                          status := "Completed"; artifacts := "s3://bucket/3/model.tar.gz" |}).
      * do 2 right. left.
      * split; reflexivity.
  - pose proof (latest_completed_training_job empty_world
                  "nw-traffic-classification-xgb") as H.
    destruct (outcome aws _ empty_world) as [name|e].
    + destruct H as (j & Hj & _). by apply not_elem_of_nil in Hj.
    + destruct H as [-> _]. reflexivity.
Defined.

(** ** Manual trigger: the captured data it reads *)

Lemma prefix_nil (s : string) : String.prefix "" s = true.
Proof. by destruct s. Qed.

Lemma prefix_cons (a b : ascii) (p s : string) :
  String.prefix (String a p) (String b s)
  = if Ascii.eqb a b then String.prefix p s else false.
Proof.
  cbn [String.prefix]. destruct (ascii_dec a b) as [->|Hne].
  - by rewrite Ascii.eqb_refl.
  - apply Ascii.eqb_neq in Hne. by rewrite Hne.
Qed.

Lemma rfind_from_none (s : string) (i : Z) :
  all_chars not_slash s = true -> rfind_from "/" s i = -1.
Proof.
  revert i. induction s as [|c s IH]; intros i Hs; [done|].
  cbn [all_chars] in Hs. apply andb_true_iff in Hs as [Hc Hs].
  cbn [rfind_from]. rewrite (IH _ Hs), prefix_cons.
  unfold not_slash in Hc. rewrite Ascii.eqb_sym.
  by destruct (Ascii.eqb c "/").
Qed.

Lemma rfind_from_last (a b : string) (i : Z) :
  0 <= i ->
  all_chars not_slash b = true ->
  rfind_from "/" (a +:+ String "/" b) i = i + Z.of_nat (String.length a).
Proof.
  revert i. induction a as [|c a IH]; intros i Hi Hb.
  - rewrite append_nil_l. cbn [rfind_from]. rewrite (rfind_from_none _ _ Hb).
    rewrite prefix_cons, Ascii.eqb_refl, prefix_nil.
    cbn [String.length]. change (0 <=? -1) with false. cbn iota. lia.
  - rewrite append_cons. cbn [rfind_from String.length].
    rewrite IH by (lia || done).
    destruct (Z.leb_spec 0 (i + 1 + Z.of_nat (String.length a))); lia.
Qed.

Lemma take_str_append (a b : string) : take_str (String.length a) (a +:+ b) = a.
Proof.
  induction a as [|c a IH].
  - reflexivity.
  - rewrite append_cons. cbn [String.length take_str]. by rewrite IH.
Qed.

(** The truncation of [folder/name] at its last slash is [folder]. *)
Lemma truncate_at_last_slash (folder name : string) :
  all_chars not_slash name = true ->
  slice_to (folder +:+ "/" +:+ name) (rfind (folder +:+ "/" +:+ name) "/") = folder.
Proof.
  intros Hname. unfold rfind.
  change ("/" +:+ name) with (String "/" name).
  rewrite rfind_from_last by (lia || done).
  unfold slice_to. rewrite Z.add_0_l.
  destruct (Z.leb_spec 0 (Z.of_nat (String.length folder))); [|lia].
  by rewrite Nat2Z.id, take_str_append.
Qed.

(** A string with a slash splits at its last slash. *)
Lemma split_at_last_slash (s : string) :
  all_chars not_slash s = false ->
  exists folder name,
    s = folder +:+ "/" +:+ name /\ all_chars not_slash name = true.
Proof.
  induction s as [|c s IH]; simpl; [done|].
  intros Hs. destruct (all_chars not_slash s) eqn:Hrest.
  - rewrite andb_true_r in Hs. unfold not_slash in Hs.
    destruct (Ascii.eqb_spec c "/") as [->|]; [|done].
    by exists "", s.
  - destruct IH as (folder & name & -> & Hname); [done|].
    by exists (String c folder), name.
Qed.

Lemma data_capture_path_last (files : list string) (file : string) :
  data_capture_path (files ++ [file]) = Ok (slice_to file (rfind file "/")).
Proof.
  unfold data_capture_path, index.
  rewrite length_app. simpl length.
  replace (Z.of_nat (length files + 1) - 1) with (Z.of_nat (length files)) by lia.
  destruct (Z.ltb_spec (Z.of_nat (length files)) 0); [lia|].
  destruct (Z.leb_spec 0 (Z.of_nat (length files))); [|lia].
  destruct (Z.ltb_spec (Z.of_nat (length files)) (Z.of_nat (length files + 1))); [|lia].
  simpl. rewrite Nat2Z.id, nth_error_app2 by lia.
  by rewrite Nat.sub_diag.
Qed.

Lemma outcome_print (w : world) (s : string) : outcome aws (print s) w = Ok tt.
Proof. reflexivity. Qed.

Lemma final_print (w : world) (s : string) :
  final aws (print s) w = set_console w (console w ++ [JStr s]).
Proof. reflexivity. Qed.

Lemma objects_final_print (w : world) (s : string) :
  objects (final aws (print s) w) = objects w.
Proof. reflexivity. Qed.

Lemma outcome_list_capture_files (w : world) (bucket_name capture_prefix : string)
  (key : string) (keys : list string) :
  firstn max_keys (keys_under (objects w) bucket_name capture_prefix) = key :: keys ->
  outcome aws (list_capture_files bucket_name capture_prefix) w
  = Ok (map (s3_uri bucket_name) (key :: keys)).
Proof.
  intros Hkeys. unfold list_capture_files.
  rewrite outcome_bind.
  change (outcome aws (do (ListObjects bucket_name capture_prefix)) w)
    with (Ok (A:=ListObjectsResponse)
            (list_objects (objects w) bucket_name capture_prefix)).
  unfold list_objects. rewrite Hkeys. cbn [Contents iter].
  rewrite outcome_bind, outcome_lift, final_lift.
  rewrite outcome_bind, outcome_print, outcome_bind, outcome_print.
  by rewrite map_map.
Qed.

Lemma outcome_manual_trigger_paths (w : world) (bucket_name capture_prefix : string)
  (key : string) (keys : list string) :
  firstn max_keys (keys_under (objects w) bucket_name capture_prefix) = key :: keys ->
  outcome aws (manual_trigger_paths bucket_name capture_prefix) w
  = data_capture_path (map (s3_uri bucket_name) (key :: keys)).
Proof.
  intros Hkeys. unfold manual_trigger_paths.
  rewrite outcome_bind, (outcome_list_capture_files _ _ _ _ _ Hkeys).
  rewrite outcome_bind, outcome_lift, final_lift.
  destruct (data_capture_path _) as [path|e]; [|reflexivity].
  by rewrite !(outcome_bind aws (print _)), !outcome_print.
Qed.

(** C10: the captured-data path of the manual trigger comes from the last
    of the listed capture files alone.  It is that file's URI cut at its
    last slash, whatever the files listed before it, and it is the path the
    step hands to the monitoring job. *)
Theorem manual_trigger_reads_last_partition
  (w : world) (bucket_name capture_prefix : string) (keys : list string) (key : string) :
  firstn max_keys (keys_under (objects w) bucket_name capture_prefix)
  = (keys ++ [key])%list ->
  exists folder name,
    s3_uri bucket_name key = folder +:+ "/" +:+ name
    /\ all_chars not_slash name = true
    /\ outcome aws (manual_trigger_paths bucket_name capture_prefix) w = Ok folder
    /\ (forall files, data_capture_path (files ++ [s3_uri bucket_name key]) = Ok folder)
    /\ (forall region role,
          manual_trigger region role bucket_name folder
          = do (RunModelMonitorJobProcessor region "ml.m5.xlarge" role folder
                  (statistics_path bucket_name) (constraints_path bucket_name)
                  (reports_path bucket_name) (postprocessor_path bucket_name))).
Proof.
  intros Hkeys.
  destruct (split_at_last_slash (s3_uri bucket_name key)) as (folder & name & Huri & Hname).
  { reflexivity. }
  exists folder, name. split; [exact Huri|]. split; [exact Hname|].
  assert (forall files, data_capture_path (files ++ [s3_uri bucket_name key]) = Ok folder)
    as Hlast.
  { intros files. rewrite data_capture_path_last, Huri.
    by rewrite truncate_at_last_slash. }
  split; [|split; [exact Hlast|reflexivity]].
  destruct keys as [|key0 keys]; simpl in Hkeys.
  - rewrite (outcome_manual_trigger_paths _ _ _ _ _ Hkeys). apply (Hlast []).
  - rewrite (outcome_manual_trigger_paths _ _ _ _ _ Hkeys).
    change (map (s3_uri bucket_name) (key0 :: keys ++ [key])%list)
      with (map (s3_uri bucket_name) ((key0 :: keys) ++ [key])%list).
    rewrite map_app. apply Hlast.
Qed.

(** With capture files of two hours in the store, the path is the folder
    of the second hour, and the file of the first hour is not under it. *)
Lemma manual_trigger_reads_last_partition_witness :
  outcome aws (manual_trigger_paths "bucket" (current_endpoint_capture_prefix "ep"))
    capture_world
  = Ok "s3://bucket/aim362/monitoring/datacapture/ep/AllTraffic/2019/12/03/11"
  /\ String.prefix "s3://bucket/aim362/monitoring/datacapture/ep/AllTraffic/2019/12/03/11"
       "s3://bucket/aim362/monitoring/datacapture/ep/AllTraffic/2019/12/03/10/a.jsonl"
     = false.
Proof.
  split; [|reflexivity].
  destruct (manual_trigger_reads_last_partition capture_world "bucket"
              (current_endpoint_capture_prefix "ep")
              ["aim362/monitoring/datacapture/ep/AllTraffic/2019/12/03/10/a.jsonl"]
              "aim362/monitoring/datacapture/ep/AllTraffic/2019/12/03/11/b.jsonl")
    as (folder & name & Huri & Hname & -> & Hlast & _).
  - vm_compute. reflexivity.
  - specialize (Hlast []). vm_compute in Hlast. congruence.
Defined.

(** ** Baseline data preparation *)

Lemma prefix_true_append (p s : string) :
  String.prefix p s = true -> exists r, s = p +:+ r.
Proof.
  revert s. induction p as [|a p IH]; intros s Hs.
  - by exists s.
  - destruct s as [|b s]; [done|]. rewrite prefix_cons in Hs.
    destruct (Ascii.eqb_spec a b) as [->|]; [|done].
    destruct (IH _ Hs) as [r ->]. by exists r.
Qed.

(** The target of an object of the validation data lies under the
    baselining prefix. *)
Lemma target_key_under_baselining (key : string) :
  is_source key ->
  exists r, target_key key = "aim362/monitoring/baselining/data/" +:+ r.
Proof.
  intros [r ->]%prefix_true_append.
  unfold bucket_key_prefix, target_key, replace.
  rewrite !append_cons, append_nil_l. simpl.
  rewrite prefix_nil, !append_cons, append_nil_l. simpl.
  eexists. reflexivity.
Qed.

(** Hence it is not an object of the validation data. *)
Lemma target_key_not_source (key : string) :
  is_source key -> ~ is_source (target_key key).
Proof.
  intros [r ->]%target_key_under_baselining. unfold is_source, bucket_key_prefix.
  rewrite !append_cons. simpl. discriminate.
Qed.

Lemma keys_under_elem (o : gmap (string * string) string) (bucket prefix key : string) :
  key ∈ keys_under o bucket prefix
  <-> is_Some (o !! (bucket, key)) /\ String.prefix prefix key = true.
Proof.
  unfold keys_under. rewrite merge_sort_Permutation.
  rewrite list_elem_of_In, in_map_iff. split.
  - intros ([b k] & <- & [Hin Hb]%filter_In).
    apply in_map_iff in Hin as ([bk body] & Hbk & Hin). simpl in Hbk. subst bk.
    apply list_elem_of_In, elem_of_map_to_list in Hin.
    unfold in_bucket in Hb. simpl in *.
    apply andb_true_iff in Hb as [->%String.eqb_eq Hp]. eauto.
  - intros [[body Hbody] Hp]. exists (bucket, key). split; [done|].
    apply filter_In. split.
    + apply in_map_iff. exists (bucket, key, body). split; [done|].
      by apply list_elem_of_In, elem_of_map_to_list.
    + unfold in_bucket. simpl. by rewrite String.eqb_refl, Hp.
Qed.

Lemma run_print (w : world) (s : string) :
  run aws (print s) w
  = (Ok tt, set_console w (console w ++ [JStr s]), [Called (Print (JStr s)) None]).
Proof. reflexivity. Qed.

Lemma copy_step_source (bucket : string) (o : gmap (string * string) string)
  (k key : string) :
  is_source k -> is_source key ->
  copy_step bucket o k !! (bucket, key) = o !! (bucket, key).
Proof.
  intros Hk Hkey. unfold copy_step. destruct (o !! (bucket, k)); [|done].
  apply lookup_insert_ne. intros [= Heq].
  apply (target_key_not_source k Hk). by rewrite Heq.
Qed.

(** The copies leave the validation data as it is. *)
Lemma copies_keep_sources (bucket : string) (keys : list string)
  (o : gmap (string * string) string) (key : string) :
  Forall is_source keys -> is_source key ->
  foldl (copy_step bucket) o keys !! (bucket, key) = o !! (bucket, key).
Proof.
  intros Hkeys Hkey. revert o. induction Hkeys as [|k keys Hk _ IH]; intros o; [done|].
  simpl. rewrite IH. by apply copy_step_source.
Qed.

(** After the copies, the target of a listed object holds the body of a
    listed object with that target. *)
Lemma copies_fill_targets (bucket : string) (keys : list string)
  (o : gmap (string * string) string) (key : string) :
  Forall is_source keys ->
  Forall (fun k => is_Some (o !! (bucket, k))) keys ->
  key ∈ keys ->
  exists key',
    key' ∈ keys
    /\ target_key key' = target_key key
    /\ foldl (copy_step bucket) o keys !! (bucket, target_key key) = o !! (bucket, key').
Proof.
  induction keys as [|k keys IH] using rev_ind; intros Hsrc Hsome Hkey.
  - by apply elem_of_nil in Hkey.
  - apply Forall_app in Hsrc as [Hsrc Hk]. apply Forall_app in Hsome as [Hsome Hbody].
    apply (proj1 (Forall_singleton _ _)) in Hk.
    apply (proj1 (Forall_singleton _ _)) in Hbody as [body Hbody].
    rewrite foldl_app. simpl. unfold copy_step at 1.
    rewrite (copies_keep_sources _ _ _ _ Hsrc Hk), Hbody.
    destruct (decide (target_key k = target_key key)) as [Heq|Hne].
    + exists k. split; [apply elem_of_app; right; by left|]. split; [exact Heq|].
      by rewrite <- Heq, lookup_insert_eq.
    + apply elem_of_app in Hkey as [Hkey|Hkey%list_elem_of_singleton]; [|by subst].
      destruct (IH Hsrc Hsome Hkey) as (key' & Hkey' & Htarget & Hlookup).
      exists key'. split; [apply elem_of_app; by left|]. split; [exact Htarget|].
      rewrite lookup_insert_ne; [exact Hlookup|]. intros [= Heq]. by apply Hne.
Qed.

Lemma run_copy_loop (bucket_name : string) (keys : list string) (w : world) :
  Forall is_source keys ->
  Forall (fun k => is_Some (objects w !! (bucket_name, k))) keys ->
  exists w' log,
    run aws
      (for_each keys (fun key =>
         print ("Copying " +:+ key +:+ " to " +:+ target_key key +:+ " ...") ;;
         do (BucketCopy bucket_name {| Bucket := bucket_name; SourceKey := key |}
               (target_key key)))) w
    = (Ok tt, w', log)
    /\ objects w' = foldl (copy_step bucket_name) (objects w) keys
    /\ omap copy_of log = map (copy_call bucket_name) keys.
Proof.
  intros Hsrc. revert w. induction Hsrc as [|k keys Hk Hsrc IH]; intros w Hsome.
  - by exists w, [].
  - apply (proj1 (Forall_cons _ _ _)) in Hsome as [[body Hbody] Hsome].
    cbn [for_each]. rewrite run_bind, run_bind, run_print, run_do. cbn [aws].
    unfold copy. cbn [Bucket SourceKey set_console objects]. rewrite Hbody.
    set (w1 := set_objects _ _).
    destruct (IH w1) as (w' & log & Hrun & Hobjects & Hlog).
    { apply Forall_forall. intros key Hin.
      pose proof (proj1 (Forall_forall _ _) Hsrc key Hin) as Hkey.
      pose proof (proj1 (Forall_forall _ _) Hsome key Hin) as Hkey_some.
      unfold w1. cbn [set_objects objects].
      rewrite lookup_insert_ne; [exact Hkey_some|].
      intros [= Heq]. apply (target_key_not_source k Hk). by rewrite Heq. }
    rewrite Hrun. eexists w', _. split; [reflexivity|]. split.
    + rewrite Hobjects. unfold w1. cbn [set_objects objects foldl].
      f_equal. unfold copy_step. by rewrite Hbody.
    + cbn [app omap list_omap copy_of map]. by rewrite Hlog.
Qed.

Lemma run_copy_baseline_data (w : world) (bucket_name : string) :
  exists w' log,
    run aws (copy_baseline_data bucket_name) w
    = (Ok tt, w', Called (ObjectsFilter bucket_name bucket_key_prefix) None :: log)
    /\ objects w'
       = foldl (copy_step bucket_name) (objects w)
           (keys_under (objects w) bucket_name bucket_key_prefix)
    /\ omap copy_of log
       = map (copy_call bucket_name) (keys_under (objects w) bucket_name bucket_key_prefix).
Proof.
  destruct (run_copy_loop bucket_name
              (keys_under (objects w) bucket_name bucket_key_prefix) w)
    as (w' & log & Hrun & Hobjects & Hlog).
  - apply Forall_forall. intros key Hkey. by apply keys_under_elem in Hkey as [_ ?].
  - apply Forall_forall. intros key Hkey. by apply keys_under_elem in Hkey as [? _].
  - exists w', log. split; [|by split].
    unfold copy_baseline_data. rewrite run_bind, run_do. cbn [aws].
    cbv zeta. by rewrite Hrun.
Qed.



(** ** Inference client *)

(** *** Decimal integers are decoded to themselves *)

Ltac digit_cases d :=
  let H := fresh in
  assert (d = 0 \/ d = 1 \/ d = 2 \/ d = 3 \/ d = 4 \/ d = 5 \/ d = 6 \/ d = 7
          \/ d = 8 \/ d = 9) as H by lia;
  destruct H as [->|[->|[->|[->|[->|[->|[->|[->|[->| ->]]]]]]]]].

Lemma digit_val_digit_char (d : Z) : 0 <= d <= 9 -> digit_val (digit_char d) = Some d.
Proof. intros Hd. digit_cases d; reflexivity. Qed.

(** A digit is none of the characters that open another value, nor
    whitespace, nor a sign. *)
Definition opens_number (c : ascii) : Prop :=
  is_ws c = false
  /\ Ascii.eqb c "{" = false /\ Ascii.eqb c "[" = false /\ Ascii.eqb c dquote = false
  /\ Ascii.eqb c "n" = false /\ Ascii.eqb c "t" = false /\ Ascii.eqb c "f" = false.

Lemma digit_opens_number (d : Z) : 0 <= d <= 9 -> opens_number (digit_char d).
Proof. intros Hd. digit_cases d; repeat split; reflexivity. Qed.

Lemma minus_opens_number : opens_number "-".
Proof. repeat split; reflexivity. Qed.

Lemma digit_not_minus (d : Z) : 0 <= d <= 9 -> Ascii.eqb (digit_char d) "-" = false.
Proof. intros Hd. digit_cases d; reflexivity. Qed.

Lemma read_digits_dec_go (fuel : nat) (n : Z) (rest : string) (acc : Z) :
  0 <= n < 2 ^ Z.of_nat fuel ->
  exists k, read_digits acc (dec_go fuel n rest) = read_digits (acc * 10 ^ k + n) rest
            /\ 0 <= k.
Proof.
  revert n rest acc. induction fuel as [|fuel IH]; intros n rest acc Hn.
  - exists 0. split; [|lia]. cbn [dec_go]. f_equal; simpl in Hn; lia.
  - cbn [dec_go]. destruct (Z.ltb_spec n 10) as [Hlt|Hge].
    + exists 1. split; [|lia]. cbn [read_digits].
      rewrite Z.mod_small by lia. rewrite digit_val_digit_char by lia.
      f_equal; lia.
    + destruct (IH (n / 10) (String (digit_char (n mod 10)) rest) acc) as (k & Hk & Hk0).
      { split; [apply Z.div_pos; lia|].
        apply Z.div_lt_upper_bound; [lia|].
        rewrite Nat2Z.inj_succ, Z.pow_succ_r in Hn by lia. lia. }
      exists (k + 1). split; [|lia]. rewrite Hk. cbn [read_digits].
      rewrite digit_val_digit_char by (pose proof (Z.mod_pos_bound n 10); lia).
      replace ((acc * 10 ^ k + n / 10) * 10 + n mod 10) with (acc * 10 ^ (k + 1) + n);
        [reflexivity|].
      rewrite Z.pow_add_r by lia.
      pose proof (Z.div_mod n 10 ltac:(lia)). lia.
Qed.

Lemma dec_fuel (n : Z) : 0 <= n -> 0 <= n < 2 ^ Z.of_nat (S (Z.to_nat (Z.log2 n))).
Proof.
  intros Hn. split; [lia|].
  rewrite Nat2Z.inj_succ, Z2Nat.id by apply Z.log2_nonneg.
  destruct (Z.eq_dec n 0) as [->|Hne]; [reflexivity|].
  apply Z.log2_spec. lia.
Qed.

Lemma read_digits_dec (n : Z) : 0 <= n -> read_digits 0 (dec n) = (n, "").
Proof.
  intros Hn. unfold dec.
  destruct (read_digits_dec_go _ n "" 0 (dec_fuel n Hn)) as (k & -> & _).
  cbn [read_digits]. f_equal; lia.
Qed.

(** The first digit of a positive number is not zero. *)
Lemma dec_go_head (fuel : nat) (n : Z) (rest : string) :
  0 < n < 2 ^ Z.of_nat fuel ->
  exists d r, dec_go fuel n rest = String (digit_char d) r /\ 1 <= d <= 9.
Proof.
  revert n rest. induction fuel as [|fuel IH]; intros n rest Hn.
  - simpl in Hn. lia.
  - cbn [dec_go]. destruct (Z.ltb_spec n 10) as [Hlt|Hge].
    + exists n, rest. rewrite Z.mod_small by lia. split; [reflexivity|lia].
    + apply IH. split; [apply Z.div_str_pos; lia|].
      apply Z.div_lt_upper_bound; [lia|].
      rewrite Nat2Z.inj_succ, Z.pow_succ_r in Hn by lia. lia.
Qed.

Lemma dec_head (n : Z) :
  0 <= n ->
  exists d r,
    dec n = String (digit_char d) r
    /\ 0 <= d <= 9
    /\ ((d =? 0) && starts_with_digit r = false).
Proof.
  intros Hn. destruct (Z.eq_dec n 0) as [->|Hne].
  - by exists 0, "".
  - destruct (dec_go_head (S (Z.to_nat (Z.log2 n))) n "") as (d & r & Hdec & Hd).
    { pose proof (dec_fuel n Hn). lia. }
    exists d, r. split; [exact Hdec|]. split; [lia|].
    destruct (Z.eqb_spec d 0); [lia|reflexivity].
Qed.

Lemma scan_number_dec (n : Z) : 0 <= n -> scan_number (dec n) = Some (JInt n, "").
Proof.
  intros Hn. destruct (dec_head n Hn) as (d & r & Hdec & Hd & Hzero).
  pose proof (read_digits_dec n Hn) as Hread.
  unfold scan_number. rewrite Hdec in *. cbn [has_sign].
  rewrite (digit_not_minus d Hd), (digit_val_digit_char d Hd), Hzero, Hread.
  reflexivity.
Qed.

Lemma scan_number_dumps_int (z : Z) : scan_number (dumps_int z) = Some (JInt z, "").
Proof.
  unfold dumps_int. destruct (Z.ltb_spec z 0) as [Hneg|Hpos].
  - destruct (dec_head (- z) ltac:(lia)) as (d & r & Hdec & Hd & Hzero).
    pose proof (read_digits_dec (- z) ltac:(lia)) as Hread.
    unfold scan_number. cbn [has_sign tail]. rewrite Ascii.eqb_refl.
    rewrite Hdec in *. rewrite (digit_val_digit_char d Hd), Hzero, Hread.
    cbn [skip_frac skip_exp String.eqb]. by rewrite Z.opp_involutive.
  - by apply scan_number_dec.
Qed.

Lemma dumps_int_head (z : Z) :
  exists c r, dumps_int z = String c r /\ opens_number c.
Proof.
  unfold dumps_int. destruct (Z.ltb_spec z 0) as [Hneg|Hpos].
  - eexists _, _. split; [reflexivity|apply minus_opens_number].
  - destruct (dec_head z Hpos) as (d & r & -> & Hd & _).
    eexists _, _. split; [reflexivity|by apply digit_opens_number].
Qed.

(** [json.loads(json.dumps(z)) == z] for an integer [z]. *)
Lemma loads_dumps_int (z : Z) : loads (dumps_int z) = Ok (JInt z).
Proof.
  pose proof (scan_number_dumps_int z) as Hscan.
  destruct (dumps_int_head z) as (c & r & Hhead & Hws & Hobj & Harr & Hstr & Hn & Ht & Hf).
  unfold loads. rewrite Hhead in *.
  cbn [skip_ws]. rewrite Hws.
  replace (2 * String.length (String c r) + 2)%nat
    with (S (2 * String.length (String c r) + 1))%nat by lia.
  cbn [parse_value]. rewrite Hobj, Harr, Hstr, Hn, Ht, Hf, Hscan.
  reflexivity.
Qed.

(** *** The decoded response *)

Lemma aws_predict (w : world) (pred : Predictor) (data : string) :
  aws _ (Predict (with_serializers pred) data) w
  = (Ok (JInt (booster w (input_fn data))), w).
Proof.
  cbn [aws]. unfold predict, with_serializers. cbn [serializer deserializer].
  unfold invoke_endpoint, output_fn, predict_fn.
  rewrite index_0_cons. cbn [rbind]. by rewrite loads_dumps_int.
Qed.

Lemma run_invoke (w : world) (pred : Predictor) :
  run aws (invoke pred) w
  = (Ok (with_serializers pred),
     set_console
       (set_console w (console w ++ [JInt (booster w (input_fn test_values_class4))]))
       ((console w ++ [JInt (booster w (input_fn test_values_class4))])
        ++ [JInt (booster w (input_fn test_values_class7))]),
     [Called (Predict (with_serializers pred) test_values_class4) None;
      Called (Print (JInt (booster w (input_fn test_values_class4)))) None;
      Called (Predict (with_serializers pred) test_values_class7) None;
      Called (Print (JInt (booster w (input_fn test_values_class7)))) None]).
Proof.
  unfold invoke. cbv zeta.
  rewrite run_bind, run_do, aws_predict.
  rewrite run_bind, run_do. cbn [aws].
  rewrite run_bind, run_do, aws_predict.
  rewrite run_bind, run_do. cbn [aws].
  reflexivity.
Qed.

(** C3: the response to every inference request is decoded to the class
    value alone, an integer and never an array: the entry point encodes
    the first and only element of the prediction, and the deserializer of
    the predictor decodes that text.  So it is for the two test requests of
    the flow, whose decoded classes are what the step prints; for a row to
    which the model answers class 4, the decoded response is 4. *)
Theorem decoded_response_is_scalar
  (w : world) (pred : Predictor) (data : string) (class : Z) :
  booster w (input_fn data) = class ->
  invoke_endpoint (booster w) data = Ok (dumps_int class)
  /\ (aws _ (Predict (with_serializers pred) data) w).1 = Ok (JInt class)
  /\ (forall items, (aws _ (Predict (with_serializers pred) data) w).1 <> Ok (JArr items))
  /\ console (final aws (invoke pred) w)
     = ((console w ++ [JInt (booster w (input_fn test_values_class4))])
        ++ [JInt (booster w (input_fn test_values_class7))])%list.
Proof.
  intros <-. split; [reflexivity|].
  rewrite aws_predict. split; [reflexivity|]. split; [discriminate|].
  unfold final. by rewrite run_invoke.
Qed.

(** For the row of class 4, answered by a model that says 4, the decoded
    response is the integer 4; the encoding of the container would have
    been decoded to the array of 4.0. *)
Lemma decoded_response_is_scalar_witness :
  (aws _ (Predict (with_serializers
                     {| endpoint_name := "ep"; serializer := DefaultSerializer;
                        deserializer := DefaultDeserializer |})
            test_values_class4) class4_world).1
  = Ok (JInt 4)
  /\ loads (default_output_fn [4]) = Ok (JArr [JFloat "4.0"]).
Proof.
  split.
  - apply (decoded_response_is_scalar class4_world _ test_values_class4 4). reflexivity.
  - vm_compute. reflexivity.
Defined.

(** ** Report reader *)

Lemma json_normalize_records (entries : list json) :
  forallb Pandas.is_dict entries = true ->
  Pandas.json_normalize (JArr entries)
  = Ok (map (Pandas.nested_to_record 0 "") entries).
Proof.
  intros Hdicts. unfold Pandas.json_normalize.
  destruct entries as [|entry entries]; [reflexivity|]. by rewrite Hdicts.
Qed.

Lemma loads_raises_decode_error (data : string) (e : exn) :
  loads data = Raise e -> exists msg, e = JSONDecodeError msg.
Proof.
  unfold loads. destruct (parse_value _ _) as [[v r]|]; [destruct (skip_ws r)|];
    intros [= <-]; eauto.
Qed.

Lemma outcome_violations_df {W : Type} (answer : forall X, call X -> W -> result X * W)
  (w w1 : W) (data : string) :
  answer _ (ReadFile "monitoring/constraint_violations.json") w = (Ok data, w1) ->
  outcome answer violations_df w
  = rbind (loads data) (fun document =>
      rbind (subscript document "violations") (fun violations =>
        rbind (Pandas.json_normalize violations) (fun table =>
          Ok (table, Pandas.head 10 table)))).
Proof.
  intros Hread. unfold violations_df.
  assert (run answer (do (ReadFile "monitoring/constraint_violations.json")) w
          = (Ok data, w1, [Called (ReadFile "monitoring/constraint_violations.json") None]))
    as Hrun by (by rewrite run_do, Hread).
  rewrite outcome_bind. unfold outcome at 1, final at 1. rewrite Hrun. cbn [fst snd].
  rewrite outcome_bind, outcome_lift, final_lift.
  destruct (loads data) as [document|e]; [|reflexivity]. cbn [rbind].
  rewrite outcome_bind, outcome_lift, final_lift.
  destruct (subscript document "violations") as [violations|e]; [|reflexivity]. cbn [rbind].
  rewrite outcome_bind, outcome_lift, final_lift.
  by destruct (Pandas.json_normalize violations) as [table|e].
Qed.



(** ** Inference requests *)

Lemma all_chars_append (P : ascii -> bool) (a b : string) :
  all_chars P (a +:+ b) = all_chars P a && all_chars P b.
Proof.
  induction a as [|c a IH]; [reflexivity|].
  rewrite append_cons. cbn [all_chars]. by rewrite IH, andb_assoc.
Qed.

Lemma all_chars_impl (P Q : ascii -> bool) (s : string) :
  (forall c, P c = true -> Q c = true) ->
  all_chars P s = true -> all_chars Q s = true.
Proof.
  intros HPQ. induction s as [|c s IH]; [done|]. cbn [all_chars].
  rewrite !andb_true_iff. intros [Hc Hs]. split; [by apply HPQ|by apply IH].
Qed.

Lemma numeric_char_plain (c : ascii) :
  numeric_char c = true -> line_char c = true /\ not_comma c = true.
Proof.
  destruct c as [[] [] [] [] [] [] [] []]; vm_compute; intros H;
    first [discriminate H | split; reflexivity].
Qed.

Lemma skip_digits_numeric (s : string) :
  exists d, s = d +:+ skip_digits s /\ all_chars numeric_char d = true.
Proof.
  induction s as [|c s (d & Hd & Hchars)]; [by exists ""|].
  cbn [skip_digits]. destruct (digit_val c) as [v|] eqn:Hc.
  - exists (String c d). rewrite append_cons, <- Hd. split; [reflexivity|].
    cbn [all_chars]. rewrite Hchars. unfold numeric_char. rewrite Hc.
    rewrite bool_decide_eq_true_2 by eauto. reflexivity.
  - by exists "".
Qed.

Lemma skip_frac_numeric (s : string) :
  exists d, s = d +:+ skip_frac s /\ all_chars numeric_char d = true.
Proof.
  destruct s as [|c s]; [by exists ""|]. cbn [skip_frac].
  destruct (Ascii.eqb_spec c ".") as [->|]; [|by exists ""].
  destruct (starts_with_digit s); [|by exists ""]. cbn [andb].
  destruct (skip_digits_numeric s) as (d & Hd & Hchars).
  exists (String "." d). rewrite append_cons, <- Hd. split; [reflexivity|].
  cbn [all_chars]. by rewrite Hchars.
Qed.

Lemma skip_exp_numeric (s : string) :
  exists d, s = d +:+ skip_exp s /\ all_chars numeric_char d = true.
Proof.
  destruct s as [|c s]; [by exists ""|]. cbn [skip_exp].
  assert (Ascii.eqb c "e" || Ascii.eqb c "E" = true -> numeric_char c = true) as Hc.
  { unfold numeric_char. destruct (Ascii.eqb c "e"), (Ascii.eqb c "E");
      rewrite ?orb_true_r; done. }
  destruct (Ascii.eqb c "e" || Ascii.eqb c "E"); [|by exists ""].
  specialize (Hc eq_refl).
  destruct s as [|sg s]; [by exists ""|].
  assert (Ascii.eqb sg "+" || Ascii.eqb sg "-" = true -> numeric_char sg = true) as Hsg.
  { unfold numeric_char. destruct (Ascii.eqb sg "+"), (Ascii.eqb sg "-");
      rewrite ?orb_true_r; done. }
  destruct ((Ascii.eqb sg "+" || Ascii.eqb sg "-") && starts_with_digit s) eqn:Hsign.
  - apply andb_true_iff in Hsign as [Hsign _].
    destruct (skip_digits_numeric s) as (d & Hd & Hchars).
    exists (String c (String sg d)). rewrite !append_cons, <- Hd. split; [reflexivity|].
    cbn [all_chars]. by rewrite Hc, (Hsg Hsign), Hchars.
  - destruct (starts_with_digit (String sg s)); [|by exists ""].
    destruct (skip_digits_numeric (String sg s)) as (d & Hd & Hchars).
    exists (String c d). rewrite append_cons, <- Hd. split; [reflexivity|].
    cbn [all_chars]. by rewrite Hc, Hchars.
Qed.

(** A decimal numeral is made of the characters of numerals. *)
Lemma is_numeric_chars (x : string) :
  is_numeric x = true -> all_chars numeric_char x = true.
Proof.
  unfold is_numeric. intros [_ Hend%String.eqb_eq]%andb_true_iff.
  assert (exists sign rest,
            x = sign +:+ rest
            /\ (if has_sign "-" x || has_sign "+" x then tail x else x) = rest
            /\ all_chars numeric_char sign = true) as (sign & rest & -> & Hrest & Hsign).
  { destruct x as [|c x]; [by exists "", ""|]. cbn [has_sign tail].
    destruct (Ascii.eqb c "-" || Ascii.eqb c "+") eqn:Hc.
    - exists (String c ""), x. split; [reflexivity|]. split; [reflexivity|].
      cbn [all_chars]. unfold numeric_char.
      destruct (Ascii.eqb c "-"), (Ascii.eqb c "+"); rewrite ?orb_true_r; done.
    - by exists "", (String c x). }
  rewrite Hrest in Hend.
  destruct (skip_digits_numeric rest) as (d1 & H1 & Hd1).
  destruct (skip_frac_numeric (skip_digits rest)) as (d2 & H2 & Hd2).
  destruct (skip_exp_numeric (skip_frac (skip_digits rest))) as (d3 & H3 & Hd3).
  rewrite Hend in H3. rewrite H3 in H2. rewrite H2 in H1. rewrite H1.
  rewrite !all_chars_append. by rewrite Hsign, Hd1, Hd2, Hd3.
Qed.

Lemma split_nonempty (s : string) (sep : ascii) : split s sep <> [].
Proof.
  destruct s as [|c s]; [done|]. cbn [split].
  destruct (Ascii.eqb c sep); [done|]. by destruct (split s sep).
Qed.

Lemma split_no_sep (x : string) (sep : ascii) :
  all_chars (fun c => negb (Ascii.eqb c sep)) x = true -> split x sep = [x].
Proof.
  induction x as [|c x IH]; [done|]. cbn [all_chars split].
  intros [Hc Hx]%andb_true_iff. apply negb_true_iff in Hc. rewrite Hc.
  by rewrite (IH Hx).
Qed.

Lemma split_append_sep (a b : string) (sep : ascii) :
  split (a +:+ String sep b) sep = (split a sep ++ split b sep)%list.
Proof.
  induction a as [|c a IH].
  - rewrite append_nil_l. cbn [split]. by rewrite Ascii.eqb_refl.
  - rewrite append_cons. cbn [split]. destruct (Ascii.eqb c sep).
    + by rewrite IH.
    + rewrite IH. pose proof (split_nonempty a sep).
      by destruct (split a sep).
Qed.

Lemma artificial_request_fields (x : string) :
  all_chars not_comma x = true ->
  split (format artificial_values x) ","
  = (split "22,,40.3,0,0,0,0,0" "," ++ [x]
     ++ split "0.0,0,0,0.0,0.0,0.0,0.0368169318,54322832.0,0.0,54322832,54322832,54322832,54322832.0,0.0,54322832,54322832,0,0.0,0.0,0,0,0,0,0,0,40,0,0.0368169318,0.0,0,0,0.0,0.0,0.0,0,0,0,0,1,0,0,0,0.0,0.0,0.0,0.0,0.0,0.0,0.0,0.0,0.0,0.0,2,0,0,0,279,-1,0,20,0.0,0.0,0,0,0.0,0.0,0,0,23,2,2018,4,0,1,0" ",")%list.
Proof.
  intros Hx.
  rewrite <- (split_no_sep x "," Hx), <- !split_append_sep.
  f_equal; vm_compute; reflexivity.
Qed.

Lemma artificial_request_line (x : string) :
  all_chars line_char x = true -> single_line (format artificial_values x) = true.
Proof.
  intros Hx. unfold single_line.
  assert (format artificial_values x
          = "22,,40.3,0,0,0,0,0," +:+ x +:+ ",0.0,0,0,0.0,0.0,0.0,0.0368169318,54322832.0,0.0,54322832,54322832,54322832,54322832.0,0.0,54322832,54322832,0,0.0,0.0,0,0,0,0,0,0,40,0,0.0368169318,0.0,0,0,0.0,0.0,0.0,0,0,0,0,1,0,0,0,0.0,0.0,0.0,0.0,0.0,0.0,0.0,0.0,0.0,0.0,2,0,0,0,279,-1,0,20,0.0,0.0,0,0,0.0,0.0,0,0,23,2,2018,4,0,1,0")
    as -> by (vm_compute; reflexivity).
  rewrite !all_chars_append, Hx. reflexivity.
Qed.

(** With a numeral for the sampled value, an artificial request has 84
    fields on one line, of which the second is empty and the others are
    numeric. *)
Lemma artificial_request_gapped (x : string) :
  is_numeric x = true -> gapped_row 84 (format artificial_values x) = true.
Proof.
  intros Hnum. pose proof (is_numeric_chars x Hnum) as Hchars.
  assert (all_chars line_char x = true) as Hline.
  { eapply all_chars_impl; [|exact Hchars]. intros c Hc. by apply numeric_char_plain. }
  assert (all_chars not_comma x = true) as Hcomma.
  { eapply all_chars_impl; [|exact Hchars]. intros c Hc. by apply numeric_char_plain. }
  unfold gapped_row.
  rewrite (artificial_request_line x Hline), (artificial_request_fields x Hcomma).
  change (split "22,,40.3,0,0,0,0,0" ",")
    with ["22"; ""; "40.3"; "0"; "0"; "0"; "0"; "0"].
  cbn [app forallb]. rewrite Hnum.
  vm_compute. reflexivity.
Qed.

Lemma index_elem {A} (l : list A) (i : Z) (x : A) : index l i = Ok x -> x ∈ l.
Proof.
  unfold index. destruct (_ && _); [|discriminate].
  destruct (nth_error l _) as [y|] eqn:Hnth; [|discriminate].
  intros [= <-]. apply list_elem_of_In. eapply nth_error_In, Hnth.
Qed.

Lemma generate_violations_requests (pred : Predictor) :
  all_calls samples_numeric (predicts_with request_ok) (generate_violations pred).
Proof.
  unfold generate_violations.
  apply all_calls_do_bind; [exact I|]. intros dist_values Hnumeric.
  apply all_calls_for_each. intros i _.
  apply all_calls_lift_bind. intros x Hx%index_elem.
  assert (is_numeric x = true) as Hnum.
  { cbn in Hnumeric. rewrite forallb_forall in Hnumeric.
    by apply Hnumeric, list_elem_of_In. }
  apply all_calls_bind.
  - apply all_calls_do. right. by apply artificial_request_gapped.
  - intros _. unfold print. repeat first [all_calls_step | exact I].
Qed.

Lemma cell_requests (s : step) :
  all_calls samples_numeric (predicts_with request_ok) (cell s).
Proof.
  destruct s; cbn [cell];
    first [ apply generate_violations_requests
          | unfold_cells;
            solve [repeat first [ all_calls_step | exact I
                                | left; vm_compute; reflexivity ]] ].
Qed.

Lemma aws_samples_numeric : answers_with aws samples_numeric.
Proof. intros X c w x. destruct c; try exact (fun _ => I). discriminate. Qed.

Lemma trace_invoke (w : world) (pred : Predictor) :
  trace aws (cell (CellInvoke pred)) w
  = [Called (Predict (with_serializers pred) test_values_class4) None;
     Called (Print (JInt (booster w (input_fn test_values_class4)))) None;
     Called (Predict (with_serializers pred) test_values_class7) None;
     Called (Print (JInt (booster w (input_fn test_values_class7)))) None].
Proof. unfold trace, cell, void. by rewrite run_bind, run_invoke. Qed.

(** C4 (as stated, refuted): the first test request of the flow does not
    have 78 fields. *)
Lemma test_request_has_not_78_values :
  ~ (forall (s : step) (w : world),
       Forall (entry_sat (predicts_with (fun data => numeric_row 78 data = true)))
         (trace aws (cell s) w)).
Proof.
  intros H.
  specialize (H (CellInvoke {| endpoint_name := "ep"; serializer := CSVSerializer;
                               deserializer := JSONDeserializer |}) class4_world).
  rewrite trace_invoke in H.
  apply (proj1 (Forall_cons _ _ _)) in H as [H _].
  cbn [entry_sat predicts_with] in H. vm_compute in H. discriminate H.
Qed.

(** A request with an empty field is not a request of numeric fields. *)
Lemma gapped_not_numeric (n : nat) (data : string) :
  gapped_row n data = true -> numeric_row n data = false.
Proof.
  unfold gapped_row, numeric_row.
  destruct (single_line data); [|reflexivity].
  destruct (length (split data ",") =? n)%nat; [|reflexivity].
  destruct (split data ",") as [|first [|second others]]; try discriminate.
  cbn [andb forallb].
  intros [[_ ->%String.eqb_eq]%andb_true_iff _]%andb_true_iff.
  by rewrite andb_false_r.
Qed.

(** C4 (amended): every inference request that a step of the flow sends
    is one comma-separated line of exactly 84 fields.  In the two test
    requests all 84 are numeric; in the artificial requests, the sampled
    values being numerals, the second field is empty and the other 83 are
    numeric.  The response to a request is decoded to a single class
    integer. *)
Theorem inference_requests
  (s : step) (W : Type) (answer : forall X, call X -> W -> result X * W) (w : W) :
  answers_with answer samples_numeric ->
  Forall (entry_sat (predicts_with request_ok)) (trace answer (cell s) w)
  /\ numeric_row 84 test_values_class4 = true
  /\ numeric_row 84 test_values_class7 = true
  /\ (forall x, is_numeric x = true ->
        gapped_row 84 (format artificial_values x) = true
        /\ numeric_row 84 (format artificial_values x) = false)
  /\ (forall (v : world) (pred : Predictor) (data : string),
        exists class,
          (aws _ (Predict (with_serializers pred) data) v).1 = Ok (JInt class)).
Proof.
  intros Hanswer. split; [|split; [|split; [|split]]].
  - by apply (all_calls_run answer samples_numeric), cell_requests.
  - vm_compute. reflexivity.
  - vm_compute. reflexivity.
  - intros x Hnum. pose proof (artificial_request_gapped x Hnum) as Hgap.
    split; [exact Hgap|]. by apply gapped_not_numeric in Hgap.
  - intros v pred data. exists (booster v (input_fn data)).
    rewrite aws_predict. reflexivity.
Qed.

(** The step of the two test requests on the reference world: both
    requests pass, and the artificial request for the sample 0.98 has its
    second field empty. *)
Lemma inference_requests_witness :
  Forall (entry_sat (predicts_with request_ok))
    (trace aws (cell (CellInvoke {| endpoint_name := "ep"; serializer := CSVSerializer;
                                   deserializer := JSONDeserializer |})) class4_world)
  /\ gapped_row 84 (format artificial_values "0.98") = true.
Proof.
  destruct (inference_requests
              (CellInvoke {| endpoint_name := "ep"; serializer := CSVSerializer;
                             deserializer := JSONDeserializer |})
              world aws class4_world aws_samples_numeric)
    as (Htrace & _ & _ & Hgap & _).
  split; [exact Htrace|]. exact (proj1 (Hgap "0.98" eq_refl)).
Defined.

(** * Further properties of the cells *)

(** ** The generator of artificial violations *)

Lemma index_nat {A} (l : list A) (i : nat) (d : A) :
  (i < length l)%nat -> index l (Z.of_nat i) = Ok (nth i l d).
Proof.
  intros Hi. unfold index.
  destruct (Z.ltb_spec (Z.of_nat i) 0); [lia|].
  destruct (Z.leb_spec 0 (Z.of_nat i)); [|lia].
  destruct (Z.ltb_spec (Z.of_nat i) (Z.of_nat (length l))); [|lia].
  cbn [andb]. rewrite Nat2Z.id.
  destruct (nth_error l i) as [x|] eqn:Hnth.
  - by rewrite (nth_error_nth _ _ d Hnth).
  - apply nth_error_None in Hnth. lia.
Qed.

Section Generator.

Context {W : Type} (answer : forall X, call X -> W -> result X * W).
Context (pred : Predictor) (samples : list string).

Hypothesis predict_ok :
  forall data w, exists r w', answer _ (Predict pred data) w = (Ok r, w').
Hypothesis sleep_ok :
  forall seconds w, exists w', answer _ (Sleep seconds) w = (Ok tt, w').
Hypothesis print_ok :
  forall value w, exists w', answer _ (Print value) w = (Ok tt, w').

Lemma run_iteration (i : nat) (w : W) :
  (i < length samples)%nat ->
  exists w' log,
    run answer
      (x <- lift (index samples (Z.of_nat i)) ;;
       do (Predict pred (format artificial_values x)) ;;
       do (Sleep "0.15") ;;
       if (0 <? Z.of_nat i) && (Z.of_nat i mod 100 =? 0)
       then print ("Executed " +:+ dec (Z.of_nat i) +:+ " inferences.")
       else Ret tt) w
    = (Ok tt, w', log)
    /\ omap request_of log = [format artificial_values (nth i samples "")]
    /\ omap sleep_of log = ["0.15"]
    /\ omap printed_of log
       = if reports_progress i then [progress_message i] else [].
Proof.
  intros Hi. rewrite run_bind, (index_nat _ _ "" Hi), run_lift.
  rewrite run_bind, run_do.
  destruct (predict_ok (format artificial_values (nth i samples "")) w) as (r & w1 & ->).
  rewrite run_bind, run_do. destruct (sleep_ok "0.15" w1) as (w2 & ->).
  fold (reports_progress i). destruct (reports_progress i).
  - unfold print. rewrite run_do.
    destruct (print_ok (JStr ("Executed " +:+ dec (Z.of_nat i) +:+ " inferences.")) w2)
      as (w3 & ->).
    eexists _, _. split; [reflexivity|]. by repeat split.
  - eexists _, _. split; [reflexivity|]. by repeat split.
Qed.

Lemma run_iterations (l : list nat) (w : W) :
  Forall (fun i => (i < length samples)%nat) l ->
  exists w' log,
    run answer
      (for_each l (fun i =>
         x <- lift (index samples (Z.of_nat i)) ;;
         do (Predict pred (format artificial_values x)) ;;
         do (Sleep "0.15") ;;
         if (0 <? Z.of_nat i) && (Z.of_nat i mod 100 =? 0)
         then print ("Executed " +:+ dec (Z.of_nat i) +:+ " inferences.")
         else Ret tt)) w
    = (Ok tt, w', log)
    /\ omap request_of log
       = map (fun i => format artificial_values (nth i samples "")) l
    /\ omap sleep_of log = map (fun _ => "0.15") l
    /\ omap printed_of log = map progress_message (List.filter reports_progress l).
Proof.
  intros Hl. revert w. induction Hl as [|i l Hi _ IH]; intros w.
  - by exists w, [].
  - cbn [for_each]. rewrite run_bind.
    destruct (run_iteration i w Hi) as (w1 & log1 & -> & Hreq1 & Hsleep1 & Hprint1).
    destruct (IH w1) as (w2 & log2 & -> & Hreq2 & Hsleep2 & Hprint2).
    eexists _, _. split; [reflexivity|].
    rewrite !omap_app, Hreq1, Hreq2, Hsleep1, Hsleep2, Hprint1, Hprint2.
    split; [reflexivity|]. split; [reflexivity|].
    cbn [List.filter]. by destruct (reports_progress i).
Qed.

End Generator.

Lemma map_nth_seq {A B} (f : A -> B) (l : list A) (d : A) :
  map (fun i => f (nth i l d)) (seq 0 (length l)) = map f l.
Proof.
  induction l as [|x l IH] using rev_ind; [reflexivity|].
  rewrite length_app, Nat.add_comm. cbn [length Nat.add].
  rewrite seq_S, !map_app. cbn [map Nat.add]. f_equal.
  - rewrite <- IH. apply map_ext_in. intros i Hi%in_seq.
    by rewrite app_nth1 by lia.
  - by rewrite app_nth2, Nat.sub_diag by lia.
Qed.



(** ** The artifact locator, continued *)

(** X2: A completed job whose name contains the base name anywhere, and which
    is later than every other such job, is the one the locator names: the
    base name need not begin the name of the job. *)
Theorem strictly_latest_job_is_named (w : world) (base_job_name : string) (j : TrainingJob) :
  j ∈ training_jobs w ->
  completed_match base_job_name j ->
  (forall j', j' ∈ training_jobs w -> completed_match base_job_name j' ->
              job_name j' <> job_name j -> creation_time j' < creation_time j) ->
  outcome aws (get_latest_training_job_name base_job_name) w = Ok (job_name j).
Proof.
  intros Hj Hmatch Hlatest.
  destruct (run_get_latest_training_job_name w base_job_name) as (sorted & Hsorted & Hrun).
  assert (j ∈ sorted) as Hin by (apply Hsorted; by split).
  destruct sorted as [|h t]; [by apply elem_of_nil in Hin|].
  destruct Hrun as [Hhead Hrun]. unfold outcome. rewrite Hrun. cbn [fst].
  f_equal. destruct (decide (job_name h = job_name j)) as [Heq|Hne]; [exact Heq|].
  assert (h ∈ training_jobs w /\ completed_match base_job_name h) as [Hh Hhm].
  { apply Hsorted. by left. }
  specialize (Hlatest h Hh Hhm Hne). specialize (Hhead j Hin). lia.
Qed.

Lemma strictly_latest_job_is_named_witness :
  outcome aws (get_latest_training_job_name "nw-traffic-classification-xgb") renamed_world
  = Ok "copy-of-nw-traffic-classification-xgb-2"
  /\ String.prefix "nw-traffic-classification-xgb" "copy-of-nw-traffic-classification-xgb-2"
     = false.
Proof.
  split; [|reflexivity].
  apply (strictly_latest_job_is_named renamed_world "nw-traffic-classification-xgb"
           {| job_name := "copy-of-nw-traffic-classification-xgb-2"; creation_time := 20;
              status := "Completed"; artifacts := "s3://bucket/2/model.tar.gz" |}).
  - right. left.
  - split; reflexivity.
  - intros j' Hj' _ Hname. unfold renamed_world, training_jobs in Hj'.
    apply elem_of_cons in Hj' as [->|Hj'].
    + simpl. lia.
    + apply elem_of_cons in Hj' as [->|Hj']; [by destruct Hname|inversion Hj'].
Defined.

Lemma run_describe_found (w : world) (j : TrainingJob) :
  j ∈ training_jobs w ->
  exists j0,
    j0 ∈ training_jobs w
    /\ job_name j0 = job_name j
    /\ run aws (get_training_job_s3_model_artifacts (job_name j)) w
       = (Ok (artifacts j0), w, [Called (DescribeTrainingJob (job_name j)) None]).
Proof.
  intros Hj. unfold get_training_job_s3_model_artifacts.
  rewrite run_bind, run_do. cbn [aws]. unfold describe_training_job.
  destruct (List.find _ (training_jobs w)) as [j0|] eqn:Hfind.
  - apply find_some in Hfind as [Hj0 Hname%String.eqb_eq].
    exists j0. split; [by apply list_elem_of_In|]. split; [exact Hname|reflexivity].
  - exfalso. apply list_elem_of_In in Hj.
    eapply find_none in Hfind; [|exact Hj]. cbn beta in Hfind.
    by rewrite String.eqb_refl in Hfind.
Qed.

(** X3: When a job is found, the step prints its name, describes the job of
    that name, prints the location of its artifacts and returns both, and
    leaves the store as it was.  When none is found, the step asks the
    platform nothing further and prints nothing: the listing is its only
    call. *)
Theorem locate_artifact_runs (w : world) :
  match outcome aws locate_artifact w with
  | Ok (name, path) =>
      (exists j, j ∈ training_jobs w
                 /\ completed_match "nw-traffic-classification-xgb" j
                 /\ job_name j = name)
      /\ (exists j0, j0 ∈ training_jobs w /\ job_name j0 = name /\ artifacts j0 = path)
      /\ omap printed_of (trace aws locate_artifact w) = [JStr name; JStr path]
      /\ console (final aws locate_artifact w) = (console w ++ [JStr name; JStr path])%list
      /\ objects (final aws locate_artifact w) = objects w
  | Raise e =>
      e = Exception "Training job not found."
      /\ trace aws locate_artifact w
         = [Called (ListTrainingJobs (latest_request "nw-traffic-classification-xgb")) None;
            Raised e]
      /\ final aws locate_artifact w = w
  end.
Proof.
  destruct (run_get_latest_training_job_name w "nw-traffic-classification-xgb")
    as (sorted & Hsorted & Hrun).
  unfold outcome, trace, final, locate_artifact. rewrite run_bind.
  destruct sorted as [|h t].
  - rewrite Hrun. cbn [fst snd]. by repeat split.
  - destruct Hrun as [_ ->].
    assert (h ∈ training_jobs w /\ completed_match "nw-traffic-classification-xgb" h)
      as [Hh Hmatch] by (apply Hsorted; by left).
    rewrite run_bind, run_print.
    destruct (run_describe_found (set_console w (console w ++ [JStr (job_name h)])) h Hh)
      as (j0 & Hj0 & Hname & Hdescribe).
    rewrite run_bind, Hdescribe, run_bind, run_print. cbn [run fst snd app].
    split; [|split; [|split; [|split]]].
    + by exists h.
    + by exists j0.
    + reflexivity.
    + cbn [set_console console]. by rewrite <- (assoc_L (++)).
    + reflexivity.
Qed.

(** ** The path of the captured data, continued *)

Lemma append_assoc (a b c : string) : (a +:+ b) +:+ c = a +:+ (b +:+ c).
Proof.
  induction a as [|x a IH]; [reflexivity|]. rewrite !append_cons. by rewrite IH.
Qed.

Lemma prefix_append (p r : string) : String.prefix p (p +:+ r) = true.
Proof.
  induction p as [|x p IH]; [by rewrite append_nil_l, prefix_nil|].
  by rewrite append_cons, prefix_cons, Ascii.eqb_refl.
Qed.

(** The URI of a key under the capture prefix of an endpoint lies under the
    capture destination given at deployment. *)
Lemma uri_of_capture_key (bucket_name endpoint rest : string) :
  s3_uri bucket_name (current_endpoint_capture_prefix endpoint +:+ rest)
  = s3_capture_upload_path bucket_name +:+ "/" +:+ endpoint +:+ rest.
Proof.
  unfold s3_uri, current_endpoint_capture_prefix, s3_capture_upload_path, prefix.
  rewrite !append_assoc. reflexivity.
Qed.

Lemma last_slash_after (destination rest : string) :
  exists folder name,
    destination +:+ "/" +:+ rest = folder +:+ "/" +:+ name
    /\ all_chars not_slash name = true
    /\ String.prefix destination folder = true.
Proof.
  destruct (all_chars not_slash rest) eqn:Hrest.
  - exists destination, rest. split; [reflexivity|]. split; [exact Hrest|].
    clear. induction destination as [|x d IH]; [reflexivity|].
    by rewrite prefix_cons, Ascii.eqb_refl.
  - destruct (split_at_last_slash rest Hrest) as (a & b & -> & Hb).
    exists (destination +:+ "/" +:+ a), b. split; [by rewrite !append_assoc|].
    split; [exact Hb|apply prefix_append].
Qed.

(** X4: Whenever the step that prepares the manual trigger succeeds, the path
    it returns is a folder that holds a listed capture file and lies under
    the capture destination with which the endpoint was deployed. *)
Theorem manual_trigger_path_in_capture_destination
  (w : world) (bucket_name endpoint path : string) :
  outcome aws (manual_trigger_paths bucket_name (current_endpoint_capture_prefix endpoint)) w
  = Ok path ->
  String.prefix (s3_capture_upload_path bucket_name) path = true
  /\ exists key name,
       key ∈ keys_under (objects w) bucket_name (current_endpoint_capture_prefix endpoint)
       /\ all_chars not_slash name = true
       /\ s3_uri bucket_name key = path +:+ "/" +:+ name.
Proof.
  intros Hout.
  destruct (firstn max_keys
              (keys_under (objects w) bucket_name (current_endpoint_capture_prefix endpoint)))
    as [|key keys] eqn:Hkeys.
  { exfalso. unfold outcome, manual_trigger_paths, list_capture_files in Hout.
    rewrite !run_bind, run_do in Hout. cbn [aws] in Hout.
    unfold list_objects in Hout. rewrite Hkeys in Hout. discriminate Hout. }
  rewrite (outcome_manual_trigger_paths _ _ _ _ _ Hkeys) in Hout.
  destruct (exists_last (l := key :: keys) ltac:(discriminate)) as (init & last & Hlast).
  assert (last ∈ keys_under (objects w) bucket_name
                   (current_endpoint_capture_prefix endpoint)) as Hin.
  { apply (subseteq_take max_keys). rewrite Hkeys, Hlast.
    apply elem_of_app. right. by left. }
  pose proof (proj1 (keys_under_elem _ _ _ _) Hin) as [_ [rest Hrest]%prefix_true_append].
  rewrite Hlast, map_app in Hout. cbn [map] in Hout.
  rewrite data_capture_path_last in Hout.
  destruct (last_slash_after (s3_capture_upload_path bucket_name) (endpoint +:+ rest))
    as (folder & name & Huri & Hname & Hprefix).
  assert (s3_uri bucket_name last = folder +:+ "/" +:+ name) as Hfull.
  { rewrite Hrest, uri_of_capture_key. exact Huri. }
  rewrite Hfull, (truncate_at_last_slash folder name Hname) in Hout.
  injection Hout as <-. split; [exact Hprefix|].
  exists last, name. split; [exact Hin|]. split; [exact Hname|exact Hfull].
Qed.

Lemma manual_trigger_path_in_capture_destination_witness :
  String.prefix (s3_capture_upload_path "bucket")
    "s3://bucket/aim362/monitoring/datacapture/ep/AllTraffic/2019/12/03/11" = true.
Proof.
  apply (manual_trigger_path_in_capture_destination capture_world "bucket" "ep").
  vm_compute. reflexivity.
Defined.

(** ** The keys of the baseline data, continued *)

Lemma replace_go_no_slash (new s : string) :
  all_chars not_slash s = true -> replace_go "data/val/" new 0 s = s.
Proof.
  induction s as [|c s IH]; [reflexivity|]. intros Hs. cbn [replace_go].
  destruct (String.prefix "data/val/" (String c s)) eqn:Hprefix.
  - apply prefix_true_append in Hprefix as [r Hr]. rewrite Hr in Hs.
    rewrite all_chars_append in Hs. discriminate Hs.
  - cbn [all_chars] in Hs. apply andb_true_iff in Hs as [_ Hs]. by rewrite IH.
Qed.

Lemma replace_go_no_dot (a s : string) :
  all_chars not_dot a = true ->
  replace_go ".part" ".csv" 0 (a +:+ s) = a +:+ replace_go ".part" ".csv" 0 s.
Proof.
  induction a as [|c a IH]; [reflexivity|]. cbn [all_chars].
  intros [Hc Ha]%andb_true_iff. rewrite !append_cons. cbn [replace_go].
  rewrite prefix_cons. unfold not_dot in Hc. rewrite Ascii.eqb_sym.
  destruct (Ascii.eqb c "."); [discriminate Hc|]. by rewrite IH.
Qed.

(** X5: For a file name without a slash or a dot, the copy of [name.part] is
    [name.csv] under the baselining prefix, the same key as the copy of
    [name.csv]: the two objects are copied to one target. *)
Theorem target_key_of_part_file (name : string) :
  all_chars not_slash name = true ->
  all_chars not_dot name = true ->
  target_key (bucket_key_prefix +:+ name +:+ ".part")
  = "aim362/monitoring/baselining/data/" +:+ name +:+ ".csv"
  /\ target_key (bucket_key_prefix +:+ name +:+ ".csv")
     = "aim362/monitoring/baselining/data/" +:+ name +:+ ".csv".
Proof.
  intros Hslash Hdot.
  assert (forall ext,
            all_chars not_slash ext = true ->
            replace (bucket_key_prefix +:+ name +:+ ext) "data/val/"
              "monitoring/baselining/data/"
            = "aim362/monitoring/baselining/data/" +:+ name +:+ ext) as Hfirst.
  { intros ext Hext. unfold bucket_key_prefix, replace.
    rewrite !append_cons, append_nil_l. simpl.
    rewrite prefix_nil, !append_cons, append_nil_l.
    rewrite replace_go_no_slash; [reflexivity|]. by rewrite all_chars_append, Hslash, Hext. }
  unfold target_key. rewrite !Hfirst by reflexivity.
  change (replace ?s ".part" ".csv") with (replace_go ".part" ".csv" 0 s).
  rewrite !(replace_go_no_dot "aim362/monitoring/baselining/data/") by reflexivity.
  rewrite !(replace_go_no_dot name) by exact Hdot.
  split; reflexivity.
Qed.

Lemma target_key_of_part_file_witness :
  target_key "aim362/data/val/part-00000.part"
  = "aim362/monitoring/baselining/data/part-00000.csv"
  /\ target_key "aim362/data/val/part-00000.csv"
     = "aim362/monitoring/baselining/data/part-00000.csv".
Proof.
  apply (target_key_of_part_file "part-00000"); reflexivity.
Defined.

Lemma uri_of_target_key (bucket_name key : string) :
  is_source key ->
  String.prefix (baseline_data_path bucket_name +:+ "/") (s3_uri bucket_name (target_key key))
  = true.
Proof.
  intros [r ->]%target_key_under_baselining.
  assert (s3_uri bucket_name ("aim362/monitoring/baselining/data/" +:+ r)
          = (baseline_data_path bucket_name +:+ "/") +:+ r) as ->.
  { unfold s3_uri, baseline_data_path, prefix. rewrite !append_assoc. reflexivity. }
  apply prefix_append.
Qed.

(** X6: Every copy the baselining loop makes stays in the bucket, reads an
    object of the validation data and writes under the location that the
    baselining job is then given as its dataset, never over an object of
    the validation data. *)
Theorem copies_land_in_the_baseline_dataset (w : world) (bucket_name role : string) :
  Forall (fun copy : string * CopySource * string =>
            copy.1.1 = bucket_name
            /\ Bucket copy.1.2 = bucket_name
            /\ is_source (SourceKey copy.1.2)
            /\ is_Some (objects w !! (bucket_name, SourceKey copy.1.2))
            /\ String.prefix (baseline_data_path bucket_name +:+ "/")
                 (s3_uri copy.1.1 copy.2) = true
            /\ ~ is_source copy.2)
    (omap copy_of (trace aws (copy_baseline_data bucket_name) w))
  /\ suggest_baseline (my_default_monitor role) bucket_name
     = do (SuggestBaseline (my_default_monitor role) (baseline_data_path bucket_name)
             true (baseline_results_path bucket_name) true).
Proof.
  split; [|reflexivity].
  destruct (run_copy_baseline_data w bucket_name) as (w' & log & Hrun & _ & Hlog).
  unfold trace. rewrite Hrun. cbn [snd omap list_omap copy_of].
  change (Forall (fun copy : string * CopySource * string =>
            copy.1.1 = bucket_name
            /\ Bucket copy.1.2 = bucket_name
            /\ is_source (SourceKey copy.1.2)
            /\ is_Some (objects w !! (bucket_name, SourceKey copy.1.2))
            /\ String.prefix (baseline_data_path bucket_name +:+ "/")
                 (s3_uri copy.1.1 copy.2) = true
            /\ ~ is_source copy.2) (omap copy_of log)).
  rewrite Hlog. apply Forall_forall. intros copy Hcopy.
  apply list_elem_of_In, in_map_iff in Hcopy as (key & <- & Hkey).
  apply list_elem_of_In, keys_under_elem in Hkey as [Hsome Hsource].
  cbn [copy_call fst snd Bucket SourceKey].
  split; [reflexivity|]. split; [reflexivity|]. split; [exact Hsource|].
  split; [exact Hsome|]. split; [by apply uri_of_target_key|].
  by apply target_key_not_source.
Qed.

(** ** The tables of the reports, continued *)

Lemma subscript_missing (d : dict) (key : string) :
  dict_get d key = None -> subscript (JObj d) key = Raise (KeyError key).
Proof. intros Hd. cbn [subscript]. by rewrite Hd. Qed.

Lemma subscript_found (d : dict) (key : string) (v : json) :
  dict_get d key = Some v -> subscript (JObj d) key = Ok v.
Proof. intros Hd. cbn [subscript]. by rewrite Hd. Qed.

Lemma length_head (n : nat) (table : Pandas.DataFrame) :
  length (Pandas.head n table) = Nat.min n (length table).
Proof. apply length_firstn. Qed.



Lemma outcome_schema_df {W : Type} (answer : forall X, call X -> W -> result X * W)
  (monitor : DefaultModelMonitor) (w w1 : W) (statistics : json) :
  answer _ (LatestBaselineStatistics monitor) w = (Ok statistics, w1) ->
  outcome answer (schema_df monitor) w
  = rbind (subscript statistics "features") (fun features =>
      rbind (Pandas.json_normalize features) (fun table =>
        Ok (table, Pandas.head 10 table))).
Proof.
  intros Hcall. unfold schema_df.
  assert (run answer (do (LatestBaselineStatistics monitor)) w
          = (Ok statistics, w1, [Called (LatestBaselineStatistics monitor) None]))
    as Hrun by (by rewrite run_do, Hcall).
  rewrite outcome_bind. unfold outcome at 1, final at 1. rewrite Hrun. cbn [fst snd].
  rewrite outcome_bind, outcome_lift, final_lift.
  destruct (subscript statistics "features") as [features|e]; [|reflexivity]. cbn [rbind].
  rewrite outcome_bind, outcome_lift, final_lift.
  by destruct (Pandas.json_normalize features) as [table|e].
Qed.

Lemma outcome_constraints_df {W : Type} (answer : forall X, call X -> W -> result X * W)
  (monitor : DefaultModelMonitor) (w w1 : W) (constraints : json) :
  answer _ (LatestSuggestedConstraints monitor) w = (Ok constraints, w1) ->
  outcome answer (constraints_df monitor) w
  = rbind (subscript constraints "features") (fun features =>
      rbind (Pandas.json_normalize features) (fun table =>
        Ok (table, Pandas.head 10 table))).
Proof.
  intros Hcall. unfold constraints_df.
  assert (run answer (do (LatestSuggestedConstraints monitor)) w
          = (Ok constraints, w1, [Called (LatestSuggestedConstraints monitor) None]))
    as Hrun by (by rewrite run_do, Hcall).
  rewrite outcome_bind. unfold outcome at 1, final at 1. rewrite Hrun. cbn [fst snd].
  rewrite outcome_bind, outcome_lift, final_lift.
  destruct (subscript constraints "features") as [features|e]; [|reflexivity]. cbn [rbind].
  rewrite outcome_bind, outcome_lift, final_lift.
  by destruct (Pandas.json_normalize features) as [table|e].
Qed.

(** X8: The two tables of the baseline are built alike from the [features] of
    the document that the baselining job produced.  A list of records gives
    one row for each feature, of which the first ten are displayed; a
    document without [features] ends the step with [KeyError]. *)
Theorem baseline_tables
  {W : Type} (answer : forall X, call X -> W -> result X * W)
  (monitor : DefaultModelMonitor) (w w1 w2 : W) (statistics constraints : json) :
  answer _ (LatestBaselineStatistics monitor) w = (Ok statistics, w1) ->
  answer _ (LatestSuggestedConstraints monitor) w = (Ok constraints, w2) ->
  (forall entries,
     subscript statistics "features" = Ok (JArr entries) ->
     forallb Pandas.is_dict entries = true ->
     exists table,
       outcome answer (schema_df monitor) w = Ok (table, firstn 10 table)
       /\ length table = length entries
       /\ length (firstn 10 table) = Nat.min 10 (length entries))
  /\ (forall entries,
        subscript constraints "features" = Ok (JArr entries) ->
        forallb Pandas.is_dict entries = true ->
        exists table,
          outcome answer (constraints_df monitor) w = Ok (table, firstn 10 table)
          /\ length table = length entries
          /\ length (firstn 10 table) = Nat.min 10 (length entries))
  /\ (forall d, statistics = JObj d -> dict_get d "features" = None ->
        outcome answer (schema_df monitor) w = Raise (KeyError "features"))
  /\ (forall d, constraints = JObj d -> dict_get d "features" = None ->
        outcome answer (constraints_df monitor) w = Raise (KeyError "features")).
Proof.
  intros Hstatistics Hconstraints.
  rewrite (outcome_schema_df answer monitor w w1 statistics Hstatistics).
  rewrite (outcome_constraints_df answer monitor w w2 constraints Hconstraints).
  split; [|split; [|split]].
  - intros entries -> Hdicts. cbn [rbind]. rewrite (json_normalize_records _ Hdicts).
    cbn [rbind]. eexists. split; [reflexivity|].
    rewrite length_firstn, length_map. by split.
  - intros entries -> Hdicts. cbn [rbind]. rewrite (json_normalize_records _ Hdicts).
    cbn [rbind]. eexists. split; [reflexivity|].
    rewrite length_firstn, length_map. by split.
  - intros d -> Hd. by rewrite (subscript_missing d _ Hd).
  - intros d -> Hd. by rewrite (subscript_missing d _ Hd).
Qed.

Lemma baseline_tables_witness :
  (exists table,
     outcome (baselined twelve_features no_features)
       (schema_df (my_default_monitor "role")) empty_world
     = Ok (table, firstn 10 table)
     /\ length table = 12%nat
     /\ length (firstn 10 table) = 10%nat)
  /\ outcome (baselined twelve_features no_features)
       (constraints_df (my_default_monitor "role")) empty_world
     = Raise (KeyError "features").
Proof.
  destruct (baseline_tables (baselined twelve_features no_features)
              (my_default_monitor "role") empty_world empty_world empty_world
              twelve_features no_features eq_refl eq_refl)
    as (Hschema & _ & _ & Hmissing).
  split.
  - destruct (Hschema (map (fun i => JObj [("name", JStr (dec (Z.of_nat i)));
                                           ("inferred_type", JStr "Integral")])
                           (seq 0 12)) eq_refl eq_refl)
      as (table & Hout & Hlen & Hshown).
    exists table. split; [exact Hout|]. split; [exact Hlen|exact Hshown].
  - by apply (Hmissing [("version", JInt 0)]).
Defined.

(** ** The capture record that is shown *)

Lemma first_line (line rest : string) :
  all_chars not_newline line = true ->
  index (split (line +:+ String "010" rest) "010") 0 = Ok line.
Proof.
  intros Hline. rewrite split_append_sep, (split_no_sep line "010" Hline).
  apply index_0_cons.
Qed.



(** ** The locations the steps agree on *)

Ltac location_goal :=
  cbn [postprocessor_at monitoring_at];
  unfold statistics_path, constraints_path, capture_config;
  unfold s3_uri, postprocessor_path, reports_path, s3_capture_upload_path,
    baseline_data_path, baseline_results_path,
    current_endpoint_capture_prefix, prefix, hourly;
  cbn [destination_s3_uri];
  rewrite ?append_assoc;
  repeat split; reflexivity.

(** X10: The post-processing script is uploaded to the very location that the
    monitoring schedule and the manual trigger are given for it, whatever
    the world answers. *)
Theorem postprocessor_location_is_shared
  (bucket_name role region data_capture_path : string) (pred : Predictor)
  (W : Type) (answer : forall X, call X -> W -> result X * W) (w : W) :
  Forall (entry_sat (postprocessor_at bucket_name))
    (trace answer (cell (CellUploadPostprocessor bucket_name)) w)
  /\ Forall (entry_sat (postprocessor_at bucket_name))
       (trace answer (cell (CellCreateSchedule role pred bucket_name)) w)
  /\ Forall (entry_sat (postprocessor_at bucket_name))
       (trace answer (cell (CellManualTrigger region role bucket_name data_capture_path)) w)
  /\ omap (fun en => match en with
                     | Called (UploadFile bucket key _) _ => Some (s3_uri bucket key)
                     | _ => None
                     end)
       (trace answer (cell (CellUploadPostprocessor bucket_name)) w)
     = match (answer _ (Print (JStr "aim362/monitoring/code")) w).1 with
       | Ok _ => [postprocessor_path bucket_name]
       | Raise _ => []
       end.
Proof.
  split; [|split; [|split]].
  - apply (all_calls_run answer (fun _ _ _ => True)); [by intros ? ? ? ? _|].
    unfold_cells. repeat first [all_calls_step | exact I | location_goal].
  - apply (all_calls_run answer (fun _ _ _ => True)); [by intros ? ? ? ? _|].
    unfold_cells. repeat first [all_calls_step | exact I | location_goal].
  - apply (all_calls_run answer (fun _ _ _ => True)); [by intros ? ? ? ? _|].
    unfold_cells. repeat first [all_calls_step | exact I | location_goal].
  - unfold trace, cell, upload_postprocessor, print. cbv zeta.
    rewrite run_bind, run_do. change (Notebook.prefix +:+ "/monitoring/code")
      with "aim362/monitoring/code".
    destruct (answer _ (Print (JStr "aim362/monitoring/code")) w) as [[[]|e] w1];
      [|reflexivity].
    rewrite run_bind, run_do. cbn [fst snd].
    destruct (answer _ (UploadFile _ _ _) w1) as [[[]|e] w2]; cbn [omap list_omap].
    + destruct (run answer _ w2) as [[r w3] log] eqn:Hrest. cbn [snd app omap list_omap].
      assert (omap (fun en => match en with
                     | Called (UploadFile bucket key _) _ => Some (s3_uri bucket key)
                     | _ => None
                     end) log = []) as ->.
      { revert Hrest. rewrite run_bind, run_do.
        destruct (answer _ (Print _) w2) as [[[]|e] w4]; [|by intros [= <- <- <-]].
        rewrite run_do.
        destruct (answer _ (Print _) w4) as [[[]|e] w5]; by intros [= <- <- <-]. }
      unfold s3_uri, postprocessor_path, prefix. rewrite ?append_assoc. reflexivity.
    + unfold s3_uri, postprocessor_path, prefix. rewrite ?append_assoc. reflexivity.
Qed.

(** X11: The steps agree on where things are.  The baselining job reads the
    location of the copies and writes the location from which the manual
    trigger takes the statistics and the constraints; the schedule, hourly
    and for the endpoint of the predictor, and the manual trigger write the
    reports to one location, under which, followed by the name of the
    endpoint, the reports are listed; and the capture files are listed under
    the capture destination of the deployment followed by the name of the
    endpoint. *)
Theorem monitoring_locations_agree
  (bucket_name role region data_capture_path : string)
  (pred : Predictor) (xgboost_model : XGBoostModel)
  (W : Type) (answer : forall X, call X -> W -> result X * W) (w : W) :
  Forall (fun s =>
            Forall (entry_sat
                      (monitoring_at bucket_name (endpoint_name pred)
                         (reports_path bucket_name +:+ "/" +:+ endpoint_name pred)))
              (trace answer (cell s) w))
    [ CellDeploy bucket_name xgboost_model;
      CellSuggestBaseline role bucket_name;
      CellCreateSchedule role pred bucket_name;
      CellManualTrigger region role bucket_name data_capture_path;
      CellListMonitoringReports bucket_name pred ]
  /\ Forall (fun s =>
               Forall (entry_sat
                         (monitoring_at bucket_name (endpoint_name pred)
                            (s3_capture_upload_path bucket_name
                             +:+ "/" +:+ endpoint_name pred)))
                 (trace answer (cell s) w))
       [ CellListCaptureFiles bucket_name (endpoint_name pred);
         CellManualTriggerPaths bucket_name (endpoint_name pred) ].
Proof.
  split; repeat apply Forall_cons_2; try apply Forall_nil_2;
    (apply (all_calls_run answer (fun _ _ _ => True)); [by intros ? ? ? ? _|]);
    unfold_cells; repeat first [all_calls_step | exact I | location_goal].
Qed.

(** ** The artificial request, continued *)

(** X12: In the request built for a sample, the ninth field is the sample as it
    was rendered, the second field is empty and the third is 40.3, which is
    a numeral but not an integer. *)
Theorem artificial_request_carries_the_sample (x : string) :
  all_chars not_comma x = true ->
  nth 8 (split (format artificial_values x) ",") "" = x
  /\ nth 1 (split (format artificial_values x) ",") "x" = ""
  /\ nth 2 (split (format artificial_values x) ",") "" = "40.3"
  /\ length (split (format artificial_values x) ",") = 84%nat.
Proof.
  intros Hx. rewrite (artificial_request_fields x Hx).
  change (split "22,,40.3,0,0,0,0,0" ",")
    with ["22"; ""; "40.3"; "0"; "0"; "0"; "0"; "0"].
  cbn [app nth]. split; [reflexivity|]. split; [reflexivity|]. split; [reflexivity|].
  vm_compute. reflexivity.
Qed.

Lemma artificial_request_carries_the_sample_witness :
  nth 8 (split (format artificial_values "1.0732") ",") "" = "1.0732".
Proof. apply (artificial_request_carries_the_sample "1.0732"). reflexivity. Defined.

(** ** The listing of the reports, continued *)

(** X13: On the reference world the listing of the reports never fails.  It
    returns nothing and prints its one message when no object lies under
    the prefix of the reports of the endpoint; otherwise it returns the URI
    of every object of the first page of the listing, in order, after
    printing them. *)
Theorem report_listing_never_fails (w : world) (bucket_name : string) (pred : Predictor) :
  let keys :=
    firstn max_keys
      (keys_under (objects w) bucket_name
         (prefix +:+ "/monitoring/reports/" +:+ endpoint_name pred)) in
  match keys with
  | [] =>
      outcome aws (list_monitoring_reports bucket_name pred) w = Ok None
      /\ omap printed_of (trace aws (list_monitoring_reports bucket_name pred) w)
         = [JStr "No monitoring reports found."]
  | _ :: _ =>
      outcome aws (list_monitoring_reports bucket_name pred) w
      = Ok (Some (map (s3_uri bucket_name) keys))
      /\ omap printed_of (trace aws (list_monitoring_reports bucket_name pred) w)
         = [JStr "Monitoring Reports Files: ";
            JStr (join (String "010" " ") (map (s3_uri bucket_name) keys))]
  end.
Proof.
  intros keys. unfold outcome, trace, list_monitoring_reports. cbv zeta.
  rewrite run_bind, run_do. cbn [aws]. unfold list_objects. fold keys.
  destruct keys as [|key keys'].
  - split; reflexivity.
  - assert (map (fun capture_file => s3_uri bucket_name (Key capture_file))
                (map Build_S3Object (key :: keys'))
            = map (s3_uri bucket_name) (key :: keys')) as Hmap
      by (by rewrite map_map).
    cbn [Contents iter lift]. unfold try_except, print.
    cbn [run bind do aws fst snd]. rewrite Hmap. split; reflexivity.
Qed.
